(** * news-api-mcp: the request mediator, the response formatter and the
      tool dispatch, embedded from [news_api_mcp/tools.py] and
      [news_api_mcp/server.py].

    Python values are JSON values ([json]); a [dict] is a finite map
    ([gmap string json]); code that can raise returns a [result]; the
    mediator threads the caller's parameter mapping and the list of
    outbound requests explicitly. *)

From Stdlib Require Import ZArith String Ascii List DecimalString Lia.
From stdpp Require Import gmap strings list fin_maps.
Open Scope string_scope.
Open Scope Z_scope.

(** ** Python values *)

(** What [response.json()] can produce and what a tool call carries as
    arguments.  Numbers are the integers ([totalResults], page sizes);
    strings are sequences of characters. *)
#[warnings="-register-all"]
Inductive json : Type :=
| JNull
| JBool (b : bool)
| JInt (z : Z)
| JStr (s : string)
| JArr (l : list json)
| JObj (m : gmap string json).

Abbreviation dict := (gmap string json).

(** The line feed of the f-strings. *)
Definition nl : string := String (ascii_of_nat 10) "".

(** [if v:] *)
Definition truthy (v : json) : bool :=
  match v with
  | JNull => false
  | JBool b => b
  | JInt z => negb (z =? 0)
  | JStr s => negb (String.eqb s "")
  | JArr l => match l with [] => false | _ => true end
  | JObj m => negb (bool_decide (m = ∅))
  end.

(** [type(v).__name__] *)
Definition type_name (v : json) : string :=
  match v with
  | JNull => "NoneType"
  | JBool _ => "bool"
  | JInt _ => "int"
  | JStr _ => "str"
  | JArr _ => "list"
  | JObj _ => "dict"
  end.

(** [str(z)] for an [int]. *)
Definition str_of_Z (z : Z) : string := NilZero.string_of_int (Z.to_int z).

(** ** Exceptions *)

(** The classes the handlers of the two modules tell apart; every other
    subclass of [Exception] is [OtherException].  Two classes derive from
    [BaseException] and not from [Exception]: [CancelledError], which
    asyncio raises into an awaited call when its task is cancelled, and
    [OtherBaseException] for the rest ([KeyboardInterrupt],
    [SystemExit]). *)
Inductive exn_class : Type :=
| TimeoutException
| ConnectError
| HTTPStatusError (response_text : string)
| ValueError
| TypeError
| AttributeError
| OtherException
| CancelledError
| OtherBaseException.

(** An exception: its class and [str(e)]. *)
Record exn : Type := Exn { exn_cls : exn_class; exn_str : string }.

Inductive result (A : Type) : Type :=
| Return (a : A)
| Raise (e : exn).
Arguments Return {A} a.
Arguments Raise {A} e.

(** Sequencing: the first exception ends the block ([x ← r; k]). *)
#[global] Instance result_bind : MBind result := fun A B k r =>
  match r with
  | Return a => k a
  | Raise e => Raise e
  end.

(** One [except] clause: the classes it catches and what it runs. *)
Record handler (A : Type) : Type := Except {
  catches : exn_class -> bool;
  handle : exn -> result A
}.
Arguments Except {A} catches handle.
Arguments catches {A} h c.
Arguments handle {A} h e.

(** The first clause that catches the exception runs; with none, the
    exception goes on to the caller. *)
Fixpoint dispatch {A} (e : exn) (hs : list (handler A)) : result A :=
  match hs with
  | [] => Raise e
  | h :: rest => if catches h (exn_cls e) then handle h e else dispatch e rest
  end.

(** [try: body  except ...: ...] *)
Definition try_ {A} (body : result A) (hs : list (handler A)) : result A :=
  match body with
  | Return a => Return a
  | Raise e => dispatch e hs
  end.

(** [except Exception]: the classes that derive from it. *)
Definition Exception (c : exn_class) : bool :=
  match c with
  | CancelledError | OtherBaseException => false
  | _ => true
  end.

Definition is_TimeoutException (c : exn_class) : bool :=
  match c with TimeoutException => true | _ => false end.
Definition is_ConnectError (c : exn_class) : bool :=
  match c with ConnectError => true | _ => false end.
Definition is_HTTPStatusError (c : exn_class) : bool :=
  match c with HTTPStatusError _ => true | _ => false end.
(** [except (ValueError, TypeError)] *)
Definition is_ValueError_or_TypeError (c : exn_class) : bool :=
  match c with ValueError | TypeError => true | _ => false end.

(** [for x in l: s = body(s, x)] *)
Fixpoint for_each {A S} (l : list A) (body : S -> A -> result S) (s : S) : result S :=
  match l with
  | [] => Return s
  | x :: rest => s' ← body s x; for_each rest body s'
  end.

(** [enumerate(l, start)] *)
Fixpoint enumerate {A} (start : Z) (l : list A) : list (Z * A) :=
  match l with
  | [] => []
  | x :: rest => (start, x) :: enumerate (start + 1) rest
  end.

(** [l[:limit]]: a negative bound counts from the end. *)
Definition slice_to {A} (l : list A) (limit : Z) : list A :=
  if 0 <=? limit then take (Z.to_nat limit) l
  else take (Z.to_nat (Z.of_nat (length l) + limit)) l.

(** [v == s] for a string literal [s]. *)
Definition py_eq_str (v : json) (s : string) : bool :=
  match v with
  | JStr t => String.eqb t s
  | _ => false
  end.

(** ['T' object has no attribute 'a'] *)
Definition attribute_error (v : json) (attr : string) : exn :=
  Exn AttributeError ("'" ++ type_name v ++ "' object has no attribute '" ++ attr ++ "'").

(** ** What the modules take from their surroundings *)

(** A [datetime] as [fromisoformat] builds it. *)
Record datetime : Type := Datetime {
  year : Z; month : Z; day : Z;
  hour : Z; minute : Z; second : Z; microsecond : Z;
  utcoffset : option Z
}.

(** The configured key, and the interpreter and library functions whose
    text is not part of the repository:
    - [API_KEY]: [os.getenv('NEWS_API_KEY')];
    - [py_repr]: [str(v)] of a list or a dict;
    - [str_upper]: [str.upper];
    - [fromisoformat]: [datetime.datetime.fromisoformat] on a string,
      [None] standing for its [ValueError];
    - [status_error]: [str(e)] of the [HTTPStatusError] that
      [raise_for_status] raises, from the status code and the URL;
    - [subscript_error]: the exception of [v[:n]] on a value that cannot be
      sliced, a [TypeError] or a [KeyError], so an [Exception];
    - [year_text]: what the [strftime] of the platform writes for [%Y]:
      the four digits of the year from 1000 on; below 1000 the C libraries
      differ (glibc writes the year without padding). *)
Class Environment : Type := {
  API_KEY : option string;
  py_repr : json -> string;
  str_upper : string -> string;
  fromisoformat : string -> option datetime;
  status_error : Z -> string -> string;
  subscript_error : json -> exn;
  year_text : Z -> string;
  subscript_error_caught : forall v, Exception (exn_cls (subscript_error v)) = true;
  year_text_four_digits : forall y, 1000 <= y <= 9999 -> year_text y = str_of_Z y
}.

Section Tools.
Context {env : Environment}.

(** [str(v)], the conversion of an f-string field. *)
Definition py_str (v : json) : string :=
  match v with
  | JNull => "None"
  | JBool true => "True"
  | JBool false => "False"
  | JInt z => str_of_Z z
  | JStr s => s
  | JArr _ | JObj _ => py_repr v
  end.

(** [v.get(key, default)]: only a dict has the method. *)
Definition py_get (v : json) (key : string) (dflt : json) : result json :=
  match v with
  | JObj m => Return (default dflt (m !! key))
  | _ => Raise (attribute_error v "get")
  end.

(** [s.replace('Z', '+00:00')] on a string. *)
Fixpoint replace_Z (s : string) : string :=
  match s with
  | EmptyString => EmptyString
  | String c rest =>
      if Ascii.eqb c "Z"%char then "+00:00" ++ replace_Z rest
      else String c (replace_Z rest)
  end.

(** [v.replace('Z', '+00:00')]: only a string has the method. *)
Definition py_replace_Z (v : json) : result string :=
  match v with
  | JStr s => Return (replace_Z s)
  | _ => Raise (attribute_error v "replace")
  end.

(** [datetime.datetime.fromisoformat(s)] *)
Definition datetime_fromisoformat (s : string) : result datetime :=
  match fromisoformat s with
  | Some d => Return d
  | None => Raise (Exn ValueError ("Invalid isoformat string: '" ++ s ++ "'"))
  end.

(** A decimal field padded with zeros on the left to [width] characters. *)
Definition zero_pad (width : nat) (s : string) : string :=
  String.concat "" (replicate (width - String.length s) "0") ++ s.

(** [date_obj.strftime("%Y-%m-%d %H:%M UTC")] *)
Definition strftime (d : datetime) : string :=
  year_text (year d) ++ "-" ++ zero_pad 2 (str_of_Z (month d)) ++ "-"
  ++ zero_pad 2 (str_of_Z (day d)) ++ " " ++ zero_pad 2 (str_of_Z (hour d)) ++ ":"
  ++ zero_pad 2 (str_of_Z (minute d)) ++ " UTC".

(** The items [v[:n]] and [enumerate] walk through: those of a list, the
    characters of a string; nothing else can be sliced. *)
Definition py_sequence (v : json) : result (list json) :=
  match v with
  | JArr l => Return l
  | JStr s => Return ((fun c => JStr (String c "")) <$> list_ascii_of_string s)
  | _ => Raise (subscript_error v)
  end.

(** ** tools.py *)

Definition NEWS_API_BASE : string := "https://newsapi.org/v2".

(** [params["apiKey"] = API_KEY] stores the string, or [None]. *)
Definition api_key_value : json :=
  match API_KEY with
  | Some k => JStr k
  | None => JNull
  end.

(** The call [client.get(url, params=params, timeout=30.0)]. *)
Record request : Type := Request {
  req_url : string;
  req_params : dict;
  req_timeout : Z
}.

(** What the mediator reads of an [httpx.Response]; [json_body] is
    [response.json()], which raises on a body that is not JSON. *)
Record response : Type := Response {
  status_code : Z;
  text : string;
  json_body : result json
}.

(** [response.raise_for_status()] *)
Definition raise_for_status (url : string) (r : response) : result unit :=
  if (200 <=? status_code r) && (status_code r <=? 299) then Return tt
  else Raise (Exn (HTTPStatusError (text r)) (status_error (status_code r) url)).



(** A call of the mediator: what it returns or raises, the caller's
    mapping after the call ([None] when the caller passed [None]), and
    the requests it sent. *)
Record mediation : Type := Mediation {
  med_return : result json;
  med_params : option dict;
  med_calls : list request
}.

Definition make_news_api_request (client : request -> result response)
    (endpoint : string) (params : option dict) : mediation :=
  let url := NEWS_API_BASE ++ "/" ++ endpoint in
  (* a fresh dict for None; otherwise the caller's own object *)
  let fresh := match params with None => true | Some _ => false end in
  let params := default ∅ params in
  (* the assignment updates that object in place *)
  let params := <["apiKey" := api_key_value]> params in
  let req := Request url params 30 in
  {| med_return :=
       try_
         (response ← client req;
          if status_code response =? 429 then
            Return (JStr "Rate limit exceeded. The News API has a limit of 100 requests per day for the free tier.")
          else if status_code response =? 401 then
            Return (JStr "Unauthorized. API key invalid or expired.")
          else if status_code response =? 400 then
            Return (JStr ("Bad request. Error details: " ++ text response))
          else
            _ ← raise_for_status url response;
            data ← json_body response;
            status ← py_get data "status" JNull;
            if py_eq_str status "error" then
              message ← py_get data "message" (JStr "Unknown error");
              Return (JStr ("News API error: " ++ py_str message))
            else Return data)
         [ Except is_TimeoutException (fun _ =>
             Return (JStr "Request timed out after 30 seconds. The News API may be experiencing delays."));
           Except is_ConnectError (fun _ =>
             Return (JStr "Failed to connect to News API. Please check your internet connection."));
           Except is_HTTPStatusError (fun e =>
             match exn_cls e with
             | HTTPStatusError body =>
                 Return (JStr ("HTTP error occurred: " ++ exn_str e ++ " - Response: " ++ body))
             | _ => Raise e
             end);
           Except Exception (fun e =>
             Return (JStr ("Unexpected error occurred: " ++ exn_str e))) ];
     med_params := if fresh then None else Some params;
     med_calls := [req] |}.

Definition format_article (article : json) : result string :=
  try_
    (published_at ← py_get article "publishedAt" (JStr "");
     formatted_date ←
       (if truthy published_at then
          try_
            (replaced ← py_replace_Z published_at;
             date_obj ← datetime_fromisoformat replaced;
             Return (strftime date_obj))
            [ Except is_ValueError_or_TypeError (fun _ => Return (py_str published_at)) ]
        else Return "Unknown date");
     title ← py_get article "title" (JStr "N/A");
     source ← py_get article "source" (JObj ∅);
     source_name ← py_get source "name" (JStr "N/A");
     author ← py_get article "author" (JStr "N/A");
     description ← py_get article "description" (JStr "N/A");
     url ← py_get article "url" (JStr "N/A");
     Return ("Title: " ++ py_str title ++ nl
             ++ "Source: " ++ py_str source_name ++ nl
             ++ "Author: " ++ py_str author ++ nl
             ++ "Published: " ++ formatted_date ++ nl
             ++ "Description: " ++ py_str description ++ nl
             ++ "URL: " ++ py_str url ++ nl
             ++ "---" ++ nl))
    [ Except Exception (fun e => Return ("Error formatting article data: " ++ exn_str e)) ].

Definition format_articles (articles : json) (limit : Z) : result string :=
  try_
    (if negb (truthy articles) then Return "No articles found."
     else
       items ← py_sequence articles;
       let articles_limited := slice_to items limit in
       formatted ← for_each (enumerate 1 articles_limited)
         (fun formatted '(i, article) =>
            article_text ← format_article article;
            Return (app formatted ["Article " ++ str_of_Z i ++ ":" ++ nl ++ article_text]))
         [];
       let formatted :=
         if limit <? Z.of_nat (length items) then
           app formatted [nl ++ "... and " ++ str_of_Z (Z.of_nat (length items) - limit)
                          ++ " more articles"]
         else formatted in
       Return (String.concat nl formatted))
    [ Except Exception (fun e => Return ("Error formatting articles: " ++ exn_str e)) ].

Definition format_source (source : json) : result string :=
  try_
    (name ← py_get source "name" (JStr "N/A");
     id ← py_get source "id" (JStr "N/A");
     description ← py_get source "description" (JStr "N/A");
     category ← py_get source "category" (JStr "N/A");
     language ← py_get source "language" (JStr "N/A");
     country ← py_get source "country" (JStr "N/A");
     url ← py_get source "url" (JStr "N/A");
     Return ("Name: " ++ py_str name ++ nl
             ++ "ID: " ++ py_str id ++ nl
             ++ "Description: " ++ py_str description ++ nl
             ++ "Category: " ++ py_str category ++ nl
             ++ "Language: " ++ py_str language ++ nl
             ++ "Country: " ++ py_str country ++ nl
             ++ "URL: " ++ py_str url ++ nl
             ++ "---" ++ nl))
    [ Except Exception (fun e => Return ("Error formatting source data: " ++ exn_str e)) ].

Definition format_sources (sources : json) (limit : Z) : result string :=
  try_
    (if negb (truthy sources) then Return "No sources found."
     else
       items ← py_sequence sources;
       let sources_limited := slice_to items limit in
       formatted ← for_each (enumerate 1 sources_limited)
         (fun formatted '(i, source) =>
            source_text ← format_source source;
            Return (app formatted ["Source " ++ str_of_Z i ++ ":" ++ nl ++ source_text]))
         [];
       let formatted :=
         if limit <? Z.of_nat (length items) then
           app formatted [nl ++ "... and " ++ str_of_Z (Z.of_nat (length items) - limit)
                          ++ " more sources"]
         else formatted in
       Return (String.concat nl formatted))
    [ Except Exception (fun e => Return ("Error formatting sources: " ++ exn_str e)) ].

(** ** server.py *)

(** [types.TextContent(type=..., text=...)] *)
Inductive content : Type :=
| TextContent (type : string) (text : string).

(** A tool call: what it returns or raises, and the requests sent upstream. *)
Record dispatched : Type := Dispatched {
  tool_return : result (list content);
  tool_calls : list request
}.

(** A [return] before any request is made. *)
Definition reply (text : string) : dispatched :=
  Dispatched (Return [TextContent "text" text]) [].

(** [arguments.get(key, default)] on the argument dict. *)
Definition arg_get (arguments : dict) (key : string) (dflt : json) : json :=
  default dflt (arguments !! key).

(** [key in arguments] *)
Definition arg_in (arguments : dict) (key : string) : bool :=
  bool_decide (is_Some (arguments !! key)).

(** [v.upper()]: only a string has the method. *)
Definition py_upper (v : json) : result string :=
  match v with
  | JStr s => Return (str_upper s)
  | _ => Raise (attribute_error v "upper")
  end.

(** [len(v)] *)
Definition py_len (v : json) : result Z :=
  match v with
  | JStr s => Return (Z.of_nat (String.length s))
  | JArr l => Return (Z.of_nat (length l))
  | JObj m => Return (Z.of_nat (size m))
  | _ => Raise (Exn TypeError ("object of type '" ++ type_name v ++ "' has no len()"))
  end.

(** [if value := arguments.get(name): params[key] = value] *)
Definition add_if_given (arguments : dict) (name key : string) (params : dict) : dict :=
  let value := arg_get arguments name JNull in
  if truthy value then <[key := value]> params else params.

(** The parameters the search tool sends. *)
Definition search_params (arguments : dict) : dict :=
  let params : dict :=
    {[ "q" := arg_get arguments "query" JNull;
       "pageSize" := arg_get arguments "page_size" (JInt 20);
       "page" := arg_get arguments "page" (JInt 1);
       "language" := arg_get arguments "language" (JStr "en");
       "sortBy" := arg_get arguments "sort_by" (JStr "publishedAt") ]} in
  let params := add_if_given arguments "from_date" "from" params in
  let params := add_if_given arguments "to_date" "to" params in
  add_if_given arguments "sources" "sources" params.

(** The parameters the headlines tool sends. *)
Definition headlines_params (arguments : dict) : dict :=
  let params : dict :=
    {[ "pageSize" := arg_get arguments "page_size" (JInt 20);
       "page" := arg_get arguments "page" (JInt 1) ]} in
  fold_left
    (fun params param_name =>
       (* The API uses 'q' instead of 'query' *)
       let key := if String.eqb param_name "query" then "q" else param_name in
       add_if_given arguments param_name key params)
    ["country"; "category"; "sources"; "query"] params.

(** The parameters the sources tool sends. *)
Definition sources_params (arguments : dict) : dict :=
  fold_left
    (fun params param_name => add_if_given arguments param_name param_name params)
    ["category"; "language"; "country"] ∅.

(** [if v := arguments.get(name): title_parts.append(part(v))] *)
Definition title_part (arguments : dict) (name : string)
    (part : json -> result string) (title_parts : list string) : result (list string) :=
  let value := arg_get arguments name JNull in
  if truthy value then p ← part value; Return (app title_parts [p])
  else Return title_parts.

(** [title = base; if title_parts: title += " for " + ", ".join(title_parts)] *)
Definition with_parts (base : string) (title_parts : list string) : string :=
  match title_parts with
  | [] => base
  | _ => base ++ " for " ++ String.concat ", " title_parts
  end.

Definition handle_call_tool (client : request -> result response)
    (name : string) (arguments : option dict) : dispatched :=
  match arguments with
  | None => reply "Missing arguments for the request"
  | Some arguments =>
  if bool_decide (arguments = ∅) then reply "Missing arguments for the request"
  else if String.eqb name "search-news" then
    let query := arg_get arguments "query" JNull in
    if negb (truthy query) then reply "Missing query parameter"
    else
      let m := make_news_api_request client "everything" (Some (search_params arguments)) in
      Dispatched
        (news_data ← med_return m;
         match news_data with
         | JStr e => Return [TextContent "text" ("Error: " ++ e)]
         | _ =>
           articles ← py_get news_data "articles" (JArr []);
           total_results ← py_get news_data "totalResults" (JInt 0);
           if negb (truthy articles) then
             Return [TextContent "text" ("No articles found for query: '" ++ py_str query ++ "'")]
           else
             formatted_articles ← format_articles articles 5;
             Return [TextContent "text"
               ("Search results for '" ++ py_str query ++ "' (Found " ++ py_str total_results
                ++ " articles):" ++ nl ++ nl ++ formatted_articles)]
         end)
        (med_calls m)
  else if String.eqb name "get-top-headlines" then
    (* We need at least one parameter (country, category, source, or query) *)
    if negb (existsb (arg_in arguments) ["country"; "category"; "sources"; "query"]) then
      reply "You must specify at least one of: country, category, sources, or query"
    else
      let m := make_news_api_request client "top-headlines" (Some (headlines_params arguments)) in
      Dispatched
        (news_data ← med_return m;
         match news_data with
         | JStr e => Return [TextContent "text" ("Error: " ++ e)]
         | _ =>
           articles ← py_get news_data "articles" (JArr []);
           total_results ← py_get news_data "totalResults" (JInt 0);
           if negb (truthy articles) then
             Return [TextContent "text" "No headlines found matching your criteria"]
           else
             formatted_articles ← format_articles articles 5;
             title_parts ← title_part arguments "country"
               (fun country => u ← py_upper country; Return ("country: " ++ u)) [];
             title_parts ← title_part arguments "category"
               (fun category => Return ("category: " ++ py_str category)) title_parts;
             title_parts ← title_part arguments "sources"
               (fun sources => Return ("sources: " ++ py_str sources)) title_parts;
             title_parts ← title_part arguments "query"
               (fun query => Return ("query: '" ++ py_str query ++ "'")) title_parts;
             let title := with_parts "Top headlines" title_parts in
             Return [TextContent "text"
               (title ++ " (Found " ++ py_str total_results ++ " articles):"
                ++ nl ++ nl ++ formatted_articles)]
         end)
        (med_calls m)
  else if String.eqb name "get-news-sources" then
    let m := make_news_api_request client "top-headlines/sources" (Some (sources_params arguments)) in
    Dispatched
      (news_data ← med_return m;
       match news_data with
       | JStr e => Return [TextContent "text" ("Error: " ++ e)]
       | _ =>
         sources ← py_get news_data "sources" (JArr []);
         if negb (truthy sources) then
           Return [TextContent "text" "No news sources found matching your criteria"]
         else
           formatted_sources ← format_sources sources 5;
           title_parts ← title_part arguments "category"
             (fun category => Return ("category: " ++ py_str category)) [];
           title_parts ← title_part arguments "language"
             (fun language => Return ("language: " ++ py_str language)) title_parts;
           title_parts ← title_part arguments "country"
             (fun country => u ← py_upper country; Return ("country: " ++ u)) title_parts;
           let title := with_parts "Available news sources" title_parts in
           n ← py_len sources;
           Return [TextContent "text"
             (title ++ " (Found " ++ str_of_Z n ++ " sources):"
              ++ nl ++ nl ++ formatted_sources)]
       end)
      (med_calls m)
  else reply ("Unknown tool: " ++ name)
  end.

End Tools.

(** ** An environment to run the code in

    A key, and executable stand-ins for the library functions: timestamps
    of the shape [YYYY-MM-DD[?HH[:MM[:SS[.fff[fff]]]]][(+|-)HH:MM]],
    upper case of the ASCII letters, the display of a list or dict whose
    strings need no escape, and the year written without padding. *)
Module Sample.

Definition digit (c : ascii) : option Z :=
  let n := nat_of_ascii c in
  if ((48 <=? n) && (n <=? 57))%nat then Some (Z.of_nat n - 48) else None.

Fixpoint digits (cs : list ascii) (acc : Z) : option Z :=
  match cs with
  | [] => Some acc
  | c :: rest => d ← digit c; digits rest (10 * acc + d)
  end.

(** A number of exactly [n] digits at the head of [cs]. *)
Definition number (n : nat) (cs : list ascii) : option (Z * list ascii) :=
  if (length cs <? n)%nat then None
  else v ← digits (take n cs) 0; Some (v, drop n cs).

Definition expect (c : ascii) (cs : list ascii) : option (list ascii) :=
  match cs with
  | x :: rest => if Ascii.eqb x c then Some rest else None
  | [] => None
  end.

Definition is_leap (y : Z) : bool :=
  ((y mod 4 =? 0) && negb (y mod 100 =? 0)) || (y mod 400 =? 0).

Definition days_in_month (y m : Z) : Z :=
  if m =? 2 then (if is_leap y then 29 else 28)
  else if (m =? 4) || (m =? 6) || (m =? 9) || (m =? 11) then 30
  else 31.

(** [(+|-)HH:MM], in minutes; nothing may follow. *)
Definition parse_offset (cs : list ascii) : option (option Z) :=
  match cs with
  | [] => Some None
  | sign :: rest =>
      sgn ← (if Ascii.eqb sign "+" then Some 1
             else if Ascii.eqb sign "-" then Some (-1) else None);
      '(h, rest) ← number 2 rest;
      rest ← expect ":" rest;
      '(m, rest) ← number 2 rest;
      match rest with
      | [] => if (h <? 24) && (m <? 60) then Some (Some (sgn * (60 * h + m))) else None
      | _ => None
      end
  end.

(** [.fff] or [.ffffff], in microseconds, and what follows. *)
Definition parse_fraction (cs : list ascii) : option (Z * list ascii) :=
  match cs with
  | "."%char :: rest =>
      match number 6 rest with
      | Some r => Some r
      | None => '(v, rest) ← number 3 rest; Some (1000 * v, rest)
      end
  | _ => Some (0, cs)
  end.

(** [:NN] when a colon comes next, zero otherwise. *)
Definition parse_field (cs : list ascii) : option (option Z * list ascii) :=
  match cs with
  | ":"%char :: rest => '(v, rest) ← number 2 rest; Some (Some v, rest)
  | _ => Some (None, cs)
  end.

Definition parse_iso (cs : list ascii) : option datetime :=
  '(y, cs) ← number 4 cs;
  cs ← expect "-" cs;
  '(mo, cs) ← number 2 cs;
  cs ← expect "-" cs;
  '(d, cs) ← number 2 cs;
  if negb ((1 <=? y) && (1 <=? mo) && (mo <=? 12) && (1 <=? d) && (d <=? days_in_month y mo))
  then None
  else
    match cs with
    | [] => Some (Datetime y mo d 0 0 0 0 None)
    | _ :: cs =>
        '(h, cs) ← number 2 cs;
        '(mi, cs) ← parse_field cs;
        '(s, cs) ← match mi with
                   | Some _ => parse_field cs
                   | None => Some (None, cs)
                   end;
        '(us, cs) ← match s with
                    | Some _ => parse_fraction cs
                    | None => Some (0, cs)
                    end;
        off ← parse_offset cs;
        let mi := default 0 mi in
        let s := default 0 s in
        if (h <? 24) && (mi <? 60) && (s <? 60) then Some (Datetime y mo d h mi s us off)
        else None
    end.

Definition iso_datetime (s : string) : option datetime :=
  parse_iso (list_ascii_of_string s).

Definition upper_char (c : ascii) : ascii :=
  let n := nat_of_ascii c in
  if ((97 <=? n) && (n <=? 122))%nat then ascii_of_nat (n - 32) else c.

Fixpoint ascii_upper (s : string) : string :=
  match s with
  | EmptyString => EmptyString
  | String c rest => String (upper_char c) (ascii_upper rest)
  end.

Fixpoint plain_repr (v : json) : string :=
  match v with
  | JNull => "None"
  | JBool true => "True"
  | JBool false => "False"
  | JInt z => str_of_Z z
  | JStr s => "'" ++ s ++ "'"
  | JArr l => "[" ++ String.concat ", " (plain_repr <$> l) ++ "]"
  | JObj m =>
      "{" ++ String.concat ", "
               ((fun kv => "'" ++ kv.1 ++ "': " ++ kv.2) <$> map_to_list (plain_repr <$> m))
      ++ "}"
  end.

Definition status_line (status : Z) (url : string) : string :=
  "Error response '" ++ str_of_Z status ++ "' for url '" ++ url ++ "'".

Definition not_subscriptable (v : json) : exn :=
  Exn TypeError ("'" ++ type_name v ++ "' object is not subscriptable").

#[export] Instance env : Environment := {|
  API_KEY := Some "k3y";
  py_repr := plain_repr;
  str_upper := ascii_upper;
  fromisoformat := iso_datetime;
  status_error := status_line;
  subscript_error := not_subscriptable;
  year_text := str_of_Z;
  subscript_error_caught := fun _ => eq_refl;
  year_text_four_digits := fun _ _ => eq_refl
|}.

End Sample.

(** ** Statements of the properties *)

(** [needle] occurs in [hay]. *)
Definition contains (needle hay : string) : Prop :=
  exists pre post, hay = pre ++ needle ++ post.

Lemma append_empty_r (s : string) : s ++ "" = s.
Proof. induction s as [| c s IH]; [reflexivity |]. cbv [append]. fold append. by rewrite IH. Qed.


Lemma contains_suffix (pre needle : string) : contains needle (pre ++ needle).
Proof. exists pre, "". by rewrite append_empty_r. Qed.

(** A block that raises, if at all, something that derives from
    [Exception]. *)
Definition ordinary {A} (r : result A) : Prop :=
  match r with
  | Return _ => True
  | Raise e => Exception (exn_cls e) = true
  end.




Section Mediator.
Context {env : Environment}.

Variable client : request -> result response.
Variable endpoint : string.
Variable params : option dict.

(** The one request the mediator sends. *)
Lemma med_calls_single :
  med_calls (make_news_api_request client endpoint params)
  = [Request (NEWS_API_BASE ++ "/" ++ endpoint) (<["apiKey" := api_key_value]> (default ∅ params)) 30].
Proof. reflexivity. Qed.

(** C1, as the code has it: when what the HTTP call raises, and what
    [response.json()] raises, derive from [Exception] (a timeout, a
    connection failure, a status error, a body that is not JSON, any
    other [Exception]), the mediator raises nothing to its caller,
    whatever the status and the body: it returns either the parsed JSON
    object or an error string.  An exception of the call that does not
    derive from [Exception] ([asyncio.CancelledError]) is caught by no
    clause and reaches the caller. *)
Theorem mediator_catches_exceptions (req : request) :
  med_calls (make_news_api_request client endpoint params) = [req] ->
  (ordinary (client req) ->
   (forall resp, client req = Return resp -> ordinary (json_body resp)) ->
   (exists data, med_return (make_news_api_request client endpoint params) = Return (JObj data))
   \/ (exists message,
         med_return (make_news_api_request client endpoint params) = Return (JStr message)))
  /\ (forall e, client req = Raise e -> Exception (exn_cls e) = false ->
        med_return (make_news_api_request client endpoint params) = Raise e).
Proof.
  intros Hcalls. rewrite med_calls_single in Hcalls. injection Hcalls as <-.
  unfold make_news_api_request; cbn [med_return]. split.
  - intros Hclient Hbody.
    destruct (client _) as [resp | [cls msg]]; cbn [mbind result_bind try_].
    + specialize (Hbody resp eq_refl).
      destruct (status_code resp =? 429); [right; eauto |].
      destruct (status_code resp =? 401); [right; eauto |].
      destruct (status_code resp =? 400); [right; eauto |].
      unfold raise_for_status.
      destruct ((200 <=? status_code resp) && (status_code resp <=? 299)); simpl;
        [| right; eauto].
      destruct (json_body resp) as [data | [cls msg]]; simpl.
      * destruct data as [ | b | z | s | l | m]; simpl;
          try (right; eexists; reflexivity).
        destruct (py_eq_str _ _); simpl; [right | left]; eauto.
      * destruct cls; simpl; try (right; eauto); discriminate Hbody.
    + destruct cls; simpl; try (right; eauto); discriminate Hclient.
  - intros e -> He. destruct e as [[] msg]; try discriminate He; reflexivity.
Qed.

(** C2: the status of the response is looked at before anything can be
    raised: 429 gives the message about the free tier's daily quota, 401
    the message about the invalid key, and 400 a message that carries the
    body of the response as it came. *)
Theorem status_codes_classified (req : request) (resp : response) :
  med_calls (make_news_api_request client endpoint params) = [req] ->
  client req = Return resp ->
  (status_code resp = 429 ->
     med_return (make_news_api_request client endpoint params)
     = Return (JStr "Rate limit exceeded. The News API has a limit of 100 requests per day for the free tier."))
  /\ (status_code resp = 401 ->
     med_return (make_news_api_request client endpoint params)
     = Return (JStr "Unauthorized. API key invalid or expired."))
  /\ (status_code resp = 400 ->
     med_return (make_news_api_request client endpoint params)
     = Return (JStr ("Bad request. Error details: " ++ text resp))
     /\ exists message,
          med_return (make_news_api_request client endpoint params) = Return (JStr message)
          /\ contains (text resp) message).
Proof.
  intros Hcalls Hresp. rewrite med_calls_single in Hcalls.
  injection Hcalls as <-.
  unfold make_news_api_request; simpl. rewrite Hresp; simpl.
  split; [| split].
  - intros ->. reflexivity.
  - intros ->. reflexivity.
  - intros ->. simpl. split; [reflexivity |].
    eexists; split; [reflexivity |].
    apply contains_suffix.
Qed.

(** C3: a response with a 2xx status whose JSON object says
    [status = error] gives an error string that carries the message of
    the upstream ([Unknown error] when it sent none); one whose JSON
    object does not say so is returned as it was parsed. *)
Theorem ok_bodies_classified (req : request) (resp : response) (data : dict) :
  med_calls (make_news_api_request client endpoint params) = [req] ->
  client req = Return resp ->
  200 <= status_code resp <= 299 ->
  json_body resp = Return (JObj data) ->
  (data !! "status" = Some (JStr "error") ->
     med_return (make_news_api_request client endpoint params)
     = Return (JStr ("News API error: " ++ py_str (default (JStr "Unknown error") (data !! "message"))))
     /\ forall m, data !! "message" = Some (JStr m) ->
          exists message,
            med_return (make_news_api_request client endpoint params) = Return (JStr message)
            /\ contains m message)
  /\ (data !! "status" <> Some (JStr "error") ->
      med_return (make_news_api_request client endpoint params) = Return (JObj data)).
Proof.
  intros Hcalls Hresp [Hlo Hhi] Hbody. rewrite med_calls_single in Hcalls.
  injection Hcalls as <-.
  unfold make_news_api_request; simpl. rewrite Hresp; simpl.
  destruct (Z.eqb_spec (status_code resp) 429) as [? | _]; [lia |].
  destruct (Z.eqb_spec (status_code resp) 401) as [? | _]; [lia |].
  destruct (Z.eqb_spec (status_code resp) 400) as [? | _]; [lia |].
  unfold raise_for_status.
  replace (200 <=? status_code resp) with true by (symmetry; apply Z.leb_le; lia).
  replace (status_code resp <=? 299) with true by (symmetry; apply Z.leb_le; lia).
  simpl. rewrite Hbody; simpl. split.
  - intros Hstatus. rewrite Hstatus; simpl. split; [reflexivity |].
    intros m Hm. rewrite Hm; simpl. eexists; split; [reflexivity |].
    apply contains_suffix.
  - intros Hstatus.
    destruct (data !! "status") as [[ | b | z | s | l | m] |] eqn:E; simpl; try reflexivity.
    destruct (String.eqb_spec s "error") as [-> | _]; [congruence | reflexivity].
Qed.


(** C9, as the code has it: the mediator writes the key into the caller's
    own mapping: after the call that mapping binds [apiKey] to the
    configured key and holds every other entry as before; exactly one
    request goes out. *)
Theorem caller_mapping_gains_the_key :
  med_params (make_news_api_request client endpoint params)
  = (fun d : dict => <["apiKey" := api_key_value]> d) <$> params
  /\ (forall before after,
        params = Some before ->
        med_params (make_news_api_request client endpoint params) = Some after ->
        after !! "apiKey" = Some api_key_value
        /\ forall k, k <> "apiKey" -> after !! k = before !! k)
  /\ length (med_calls (make_news_api_request client endpoint params)) = 1%nat.
Proof.
  split; [by destruct params |]. split; [| reflexivity].
  intros before after ->; simpl. intros [= <-]. split.
  - apply lookup_insert_eq.
  - intros k Hk. by apply lookup_insert_ne.
Qed.

End Mediator.

(** ** The formatter *)

(** The text a renderer returned. *)
Definition text_of (r : result string) : string :=
  match r with
  | Return t => t
  | Raise e => exn_str e
  end.

(** The blocks of a list: each item under its 1-based label. *)
Definition labelled (label : string) (render : json -> result string)
    (items : list json) : list string :=
  imap (fun i x => label ++ str_of_Z (Z.of_nat i + 1) ++ ":" ++ nl ++ text_of (render x)) items.

(** The closing line, present when more than [limit] items came. *)
Definition omitted (kinds : string) (n : nat) (limit : Z) : list string :=
  if limit <? Z.of_nat n
  then [nl ++ "... and " ++ str_of_Z (Z.of_nat n - limit) ++ " more " ++ kinds]
  else [].

(** The block of an article, from the six values shown. *)
Definition article_block (title source author published description url : string) : string :=
  "Title: " ++ title ++ nl ++ "Source: " ++ source ++ nl ++ "Author: " ++ author ++ nl
  ++ "Published: " ++ published ++ nl ++ "Description: " ++ description ++ nl
  ++ "URL: " ++ url ++ nl ++ "---" ++ nl.

(** The block of a source, from the seven values shown. *)
Definition source_block (name id description category language country url : string) : string :=
  "Name: " ++ name ++ nl ++ "ID: " ++ id ++ nl ++ "Description: " ++ description ++ nl
  ++ "Category: " ++ category ++ nl ++ "Language: " ++ language ++ nl
  ++ "Country: " ++ country ++ nl ++ "URL: " ++ url ++ nl ++ "---" ++ nl.

(** A decimal digit. *)
Definition is_digit (c : ascii) : bool :=
  let n := nat_of_ascii c in ((48 <=? n) && (n <=? 57))%nat.

(** A string of [n] decimal digits. *)
Definition all_digits (n : nat) (s : string) : bool :=
  (String.length s =? n)%nat && forallb is_digit (list_ascii_of_string s).

(** The display form [YYYY-MM-DD HH:MM UTC]. *)
Definition display_form (t : string) : Prop :=
  exists y mo d h mi : string,
    all_digits 4 y = true /\ all_digits 2 mo = true /\ all_digits 2 d = true
    /\ all_digits 2 h = true /\ all_digits 2 mi = true
    /\ t = y ++ "-" ++ mo ++ "-" ++ d ++ " " ++ h ++ ":" ++ mi ++ " UTC".

(** A test that holds on a whole range holds at each of its numbers. *)
Lemma forallb_seqZ (P : Z -> bool) (lo n x : Z) :
  forallb P (seqZ lo n) = true -> lo <= x < lo + n -> P x = true.
Proof.
  intros Hall Hx. rewrite forallb_forall in Hall. apply Hall.
  apply list_elem_of_In, elem_of_seqZ. lia.
Qed.

Lemma four_digits (y : Z) : 1000 <= y <= 9999 -> all_digits 4 (str_of_Z y) = true.
Proof.
  intros Hy. apply (forallb_seqZ (fun y => all_digits 4 (str_of_Z y)) 1000 9000); [| lia].
  vm_compute. reflexivity.
Qed.

Lemma two_digits (n : Z) : 0 <= n <= 99 -> all_digits 2 (zero_pad 2 (str_of_Z n)) = true.
Proof.
  intros Hn. apply (forallb_seqZ (fun n => all_digits 2 (zero_pad 2 (str_of_Z n))) 0 100); [| lia].
  vm_compute. reflexivity.
Qed.

(** The [source] entry of an article is a mapping when it is there. *)
Definition source_is_mapping (a : dict) : Prop :=
  a !! "source" = None \/ exists s, a !! "source" = Some (JObj s).

(** The [publishedAt] entry of an article is a string or null when it is
    there. *)
Definition published_is_text (a : dict) : Prop :=
  a !! "publishedAt" = None \/ a !! "publishedAt" = Some JNull
  \/ exists s, a !! "publishedAt" = Some (JStr s).

(** The mapping under [source], empty when there is none. *)
Definition source_of (a : dict) : dict :=
  match a !! "source" with
  | Some (JObj s) => s
  | _ => ∅
  end.

Section Formatter.
Context {env : Environment}.

(** The value shown for a field: the placeholder when it is absent. *)
Definition shown (d : dict) (k : string) : string :=
  match d !! k with
  | None => "N/A"
  | Some v => py_str v
  end.

Lemma py_str_default (d : dict) (k : string) :
  py_str (default (JStr "N/A") (d !! k)) = shown d k.
Proof. unfold shown. by destruct (d !! k). Qed.

(** A [try] whose clause is [except Exception] and returns, around a
    block that raises nothing else. *)
Lemma try_catch_ordinary {A} (body : result A) (h : exn -> A) :
  ordinary body ->
  exists a, try_ body [Except Exception (fun e => Return (h e))] = Return a.
Proof.
  destruct body as [a | e]; simpl; [eauto |]. intros ->. eauto.
Qed.

Lemma ordinary_bind {A B} (r : result A) (k : A -> result B) :
  ordinary r -> (forall a, ordinary (k a)) -> ordinary (r ≫= k).
Proof. destruct r as [a | e]; simpl; eauto. Qed.

(** What a handler does not catch goes on as it was. *)
Lemma ordinary_try {A} (body : result A) (hs : list (handler A)) :
  ordinary body -> (forall h e, h ∈ hs -> ordinary (handle h e)) -> ordinary (try_ body hs).
Proof.
  destruct body as [a | e]; [done |]. simpl. intros He Hhs.
  induction hs as [| h hs IH]; [done |]. simpl.
  destruct (catches h (exn_cls e)).
  - apply Hhs. by left.
  - apply IH. intros h' e' Hh'. apply Hhs. by right.
Qed.

Lemma ordinary_py_get (v : json) (key : string) (dflt : json) : ordinary (py_get v key dflt).
Proof. by destruct v. Qed.

Lemma ordinary_py_replace_Z (v : json) : ordinary (py_replace_Z v).
Proof. by destruct v. Qed.

Lemma ordinary_fromisoformat (s : string) : ordinary (datetime_fromisoformat s).
Proof. unfold datetime_fromisoformat. by destruct (fromisoformat s). Qed.

Lemma ordinary_py_sequence (v : json) : ordinary (py_sequence v).
Proof. destruct v; try done; apply subscript_error_caught. Qed.

Lemma ordinary_for_each {A S} (l : list A) (body : S -> A -> result S) (s : S) :
  (forall s x, ordinary (body s x)) -> ordinary (for_each l body s).
Proof.
  intros Hbody. revert s. induction l as [| x l IH]; intros s; [done |].
  simpl. by apply ordinary_bind.
Qed.

(** The steps of a block, one after the other. *)
Ltac ordinary_steps :=
  repeat first
    [ apply ordinary_bind; [| intros ?]
    | apply ordinary_py_get
    | apply ordinary_py_replace_Z
    | apply ordinary_fromisoformat
    | apply ordinary_py_sequence
    | exact I ].

Lemma format_article_returns (v : json) : exists t, format_article v = Return t.
Proof.
  apply try_catch_ordinary. ordinary_steps.
  destruct (truthy _); [| exact I].
  apply ordinary_try; [ordinary_steps |].
  intros h e ->%list_elem_of_singleton. exact I.
Qed.

Lemma format_source_returns (v : json) : exists t, format_source v = Return t.
Proof. apply try_catch_ordinary. ordinary_steps. Qed.

Lemma format_articles_returns (v : json) (limit : Z) :
  exists t, format_articles v limit = Return t.
Proof.
  apply try_catch_ordinary. destruct (negb _); [exact I |]. ordinary_steps.
  apply ordinary_for_each. intros s [i x].
  by destruct (format_article_returns x) as [t ->].
Qed.

Lemma format_sources_returns (v : json) (limit : Z) :
  exists t, format_sources v limit = Return t.
Proof.
  apply try_catch_ordinary. destruct (negb _); [exact I |]. ordinary_steps.
  apply ordinary_for_each. intros s [i x].
  by destruct (format_source_returns x) as [t ->].
Qed.

Lemma format_source_dict (s : dict) :
  format_source (JObj s)
  = Return (source_block (shown s "name") (shown s "id") (shown s "description")
              (shown s "category") (shown s "language") (shown s "country") (shown s "url")).
Proof.
  unfold format_source, source_block; simpl. by rewrite !py_str_default.
Qed.

(** The Published line of an article whose [publishedAt] is [v]. *)
Definition published_line (v : option json) : string :=
  match v with
  | Some (JStr s) =>
      if String.eqb s "" then "Unknown date"
      else match fromisoformat (replace_Z s) with
           | Some d => strftime d
           | None => s
           end
  | _ => "Unknown date"
  end.

Lemma format_article_dict (a : dict) :
  source_is_mapping a -> published_is_text a ->
  format_article (JObj a)
  = Return (article_block (shown a "title") (shown (source_of a) "name") (shown a "author")
              (published_line (a !! "publishedAt")) (shown a "description") (shown a "url")).
Proof.
  intros Hsrc Hpub. unfold format_article, article_block, source_of, published_line; simpl.
  assert (Hs : exists s, default (JObj ∅) (a !! "source") = JObj s
                         /\ match a !! "source" with Some (JObj s) => s | _ => ∅ end = s).
  { destruct Hsrc as [-> | [s ->]]; simpl; eauto. }
  destruct Hs as (s & -> & ->).
  destruct Hpub as [-> | [-> | [p ->]]]; simpl; rewrite ?py_str_default; try reflexivity.
  destruct (String.eqb p ""); simpl; rewrite ?py_str_default; [reflexivity |].
  unfold datetime_fromisoformat. destruct (fromisoformat (replace_Z p)); simpl;
    by rewrite ?py_str_default.
Qed.

(** The loop over [enumerate]: one labelled block for each item, in order. *)
Lemma for_each_labelled (label : string) (render : json -> result string)
    (items : list json) (start : Z) (acc : list string) :
  (forall x, exists t, render x = Return t) ->
  for_each (enumerate start items)
    (fun formatted '(i, x) =>
       t ← render x; Return (app formatted [label ++ str_of_Z i ++ ":" ++ nl ++ t]))
    acc
  = Return (app acc (imap (fun i x => label ++ str_of_Z (Z.of_nat i + start) ++ ":" ++ nl
                                        ++ text_of (render x)) items)).
Proof.
  intros Hret. revert start acc.
  induction items as [| x items IH]; intros start acc; simpl.
  - by rewrite app_nil_r.
  - destruct (Hret x) as [t Ht]. rewrite Ht; simpl. rewrite IH, <- app_assoc; simpl.
    do 3 f_equal. apply imap_ext. intros i y _. unfold compose.
    by replace (Z.of_nat i + (start + 1)) with (Z.of_nat (S i) + start) by lia.
Qed.

Lemma take_min_length {A} (n : nat) (l : list A) : take (n `min` length l) l = take n l.
Proof.
  destruct (Nat.le_ge_cases n (length l)) as [H | H].
  - by rewrite Nat.min_l.
  - rewrite Nat.min_r by done. by rewrite !take_ge.
Qed.

Lemma slice_to_nonneg {A} (l : list A) (limit : Z) :
  0 <= limit -> slice_to l limit = take (Z.to_nat limit `min` length l) l.
Proof.
  intros H. unfold slice_to.
  replace (0 <=? limit) with true by (symmetry; by apply Z.leb_le).
  by rewrite take_min_length.
Qed.

Lemma format_articles_list (items : list json) (limit : Z) :
  items <> [] ->
  format_articles (JArr items) limit
  = Return (String.concat nl (app (labelled "Article " format_article (slice_to items limit))
                                   (omitted "articles" (length items) limit))).
Proof.
  intros Hne. unfold format_articles, labelled, omitted.
  destruct items as [| x items]; [done |]. cbn [truthy negb py_sequence mbind result_bind].
  rewrite (for_each_labelled "Article " format_article) by apply format_article_returns.
  unfold mbind, result_bind, try_. rewrite app_nil_l.
  destruct (limit <? _); [reflexivity | by rewrite app_nil_r].
Qed.

Lemma format_sources_list (items : list json) (limit : Z) :
  items <> [] ->
  format_sources (JArr items) limit
  = Return (String.concat nl (app (labelled "Source " format_source (slice_to items limit))
                                   (omitted "sources" (length items) limit))).
Proof.
  intros Hne. unfold format_sources, labelled, omitted.
  destruct items as [| x items]; [done |]. cbn [truthy negb py_sequence mbind result_bind].
  rewrite (for_each_labelled "Source " format_source) by apply format_source_returns.
  unfold mbind, result_bind, try_. rewrite app_nil_l.
  destruct (limit <? _); [reflexivity | by rewrite app_nil_r].
Qed.

(** C4, as the code has it: in the block of an article record the
    placeholder [N/A] stands for each of title, source name, author,
    description and URL that is absent, and [Unknown date] for an absent
    published timestamp; in the block of a source record [N/A] stands for
    each of name, id, description, category, language, country and URL
    that is absent. *)
Theorem absent_fields_have_placeholders (a s : dict) :
  source_is_mapping a -> published_is_text a ->
  (exists published,
      format_article (JObj a)
      = Return (article_block (shown a "title") (shown (source_of a) "name") (shown a "author")
                  published (shown a "description") (shown a "url"))
      /\ (a !! "publishedAt" = None -> published = "Unknown date"))
  /\ format_source (JObj s)
     = Return (source_block (shown s "name") (shown s "id") (shown s "description")
                 (shown s "category") (shown s "language") (shown s "country") (shown s "url"))
  /\ (forall (d : dict) (k : string), d !! k = None -> shown d k = "N/A")
  /\ (a !! "source" = None -> shown (source_of a) "name" = "N/A").
Proof.
  intros Hsrc Hpub. split; [| split; [apply format_source_dict | split]].
  - eexists; split; [by apply format_article_dict |]. by intros ->.
  - intros d k Hk. unfold shown. by rewrite Hk.
  - intros Hk. unfold source_of, shown. by rewrite Hk.
Qed.

(** C5, as the code has it, for a limit that is not negative: an empty
    list gives the sentence [No articles found.] ([No sources found.]);
    any other list gives the blocks of its first [min(limit, length)]
    items, each under its label [Article N:] ([Source N:]) counted from
    1, joined by line feeds, followed, exactly when the list is longer
    than the limit, by the line that tells how many were left out
    ([length - limit]).  Each item is rendered: the renderers return for
    every value. *)
Theorem lists_rendered_up_to_limit (items : list json) (limit : Z) :
  0 <= limit ->
  format_articles (JArr []) limit = Return "No articles found."
  /\ format_sources (JArr []) limit = Return "No sources found."
  /\ (items <> [] ->
      format_articles (JArr items) limit
      = Return (String.concat nl
                  (app (labelled "Article " format_article
                          (take (Z.to_nat limit `min` length items) items))
                       (if limit <? Z.of_nat (length items)
                        then [nl ++ "... and " ++ str_of_Z (Z.of_nat (length items) - limit)
                              ++ " more articles"]
                        else [])))
      /\ format_sources (JArr items) limit
        = Return (String.concat nl
                    (app (labelled "Source " format_source
                            (take (Z.to_nat limit `min` length items) items))
                         (if limit <? Z.of_nat (length items)
                          then [nl ++ "... and " ++ str_of_Z (Z.of_nat (length items) - limit)
                                ++ " more sources"]
                          else []))))
  /\ length (labelled "Article " format_article (take (Z.to_nat limit `min` length items) items))
     = (Z.to_nat limit `min` length items)%nat
  /\ length (labelled "Source " format_source (take (Z.to_nat limit `min` length items) items))
     = (Z.to_nat limit `min` length items)%nat
  /\ (forall x, exists t, format_article x = Return t)
  /\ (forall x, exists t, format_source x = Return t).
Proof.
  intros Hlimit.
  split; [reflexivity |]. split; [reflexivity |]. split; [| split; [| split; [| split]]].
  - intros Hne. split.
    + rewrite format_articles_list by done. by rewrite slice_to_nonneg.
    + rewrite format_sources_list by done. by rewrite slice_to_nonneg.
  - unfold labelled. rewrite length_imap, length_take. lia.
  - unfold labelled. rewrite length_imap, length_take. lia.
  - apply format_article_returns.
  - apply format_source_returns.
Qed.

(** The fields of a timestamp are those of a calendar date and a time of
    day, the year having four digits. *)
Definition four_digit_year (d : datetime) : Prop :=
  1000 <= year d <= 9999 /\ 1 <= month d <= 12 /\ 1 <= day d <= 31
  /\ 0 <= hour d <= 23 /\ 0 <= minute d <= 59.

Lemma display_form_strftime (d : datetime) : four_digit_year d -> display_form (strftime d).
Proof.
  intros (Hy & Hmo & Hd & Hh & Hmi). unfold strftime.
  rewrite year_text_four_digits by done.
  exists (str_of_Z (year d)), (zero_pad 2 (str_of_Z (month d))),
    (zero_pad 2 (str_of_Z (day d))), (zero_pad 2 (str_of_Z (hour d))),
    (zero_pad 2 (str_of_Z (minute d))).
  split_and!; try reflexivity;
    first [ apply four_digits; lia | apply two_digits; lia ].
Qed.

(** C6, as the code has it, for a [publishedAt] string that is not empty
    in an article whose [source] is absent or a mapping: when
    [fromisoformat] parses it (with [Z] read as [+00:00]) the Published
    line shows what [strftime] writes for the timestamp, which for a year
    from 1000 to 9999 has the form [YYYY-MM-DD HH:MM UTC], as in
    [2024-03-01 12:30 UTC] (an earlier year is written as the platform
    writes [%Y]); when it does not parse, the line shows the string as it
    came; and the renderer returns for every value. *)
Theorem published_timestamp_rendered (a : dict) (s : string) :
  source_is_mapping a -> a !! "publishedAt" = Some (JStr s) -> s <> "" ->
  (forall d, fromisoformat (replace_Z s) = Some d ->
     format_article (JObj a)
     = Return (article_block (shown a "title") (shown (source_of a) "name") (shown a "author")
                 (strftime d) (shown a "description") (shown a "url"))
     /\ (four_digit_year d -> display_form (strftime d)))
  /\ (fromisoformat (replace_Z s) = None ->
      format_article (JObj a)
      = Return (article_block (shown a "title") (shown (source_of a) "name") (shown a "author")
                  s (shown a "description") (shown a "url")))
  /\ strftime (Datetime 2024 3 1 12 30 0 0 (Some 0)) = "2024-03-01 12:30 UTC"
  /\ (forall v, exists t, format_article v = Return t).
Proof.
  intros Hsrc Hpub Hs.
  assert (Hline : format_article (JObj a)
                  = Return (article_block (shown a "title") (shown (source_of a) "name")
                              (shown a "author") (published_line (Some (JStr s)))
                              (shown a "description") (shown a "url"))).
  { rewrite <- Hpub. apply format_article_dict; [done |]. right; right; eauto. }
  unfold published_line in Hline.
  destruct (String.eqb_spec s "") as [-> | _]; [done |].
  split; [| split; [| split]].
  - intros d Hd. rewrite Hd in Hline. split; [done | apply display_form_strftime].
  - intros Hd. by rewrite Hd in Hline.
  - unfold strftime. cbn [year]. by rewrite year_text_four_digits by lia.
  - apply format_article_returns.
Qed.

End Formatter.

(** ** The dispatch *)

(** The [country] argument is a string when it is there, as the schemas
    of the tools declare it. *)
Definition country_is_text (arguments : dict) : Prop :=
  arguments !! "country" = None \/ exists c, arguments !! "country" = Some (JStr c).

Section Dispatch.
Context {env : Environment}.

Variable client : request -> result response.

(** C7: a call of get-top-headlines whose arguments have none of the keys
    [country], [category], [sources] and [query] is answered with a
    message about the arguments, and no request is sent. *)
Theorem headlines_need_a_filter (arguments : option dict) :
  (forall a, arguments = Some a ->
     a !! "country" = None /\ a !! "category" = None
     /\ a !! "sources" = None /\ a !! "query" = None) ->
  exists message,
    handle_call_tool client "get-top-headlines" arguments
    = Dispatched (Return [TextContent "text" message]) []
    /\ (message = "Missing arguments for the request"
        \/ message = "You must specify at least one of: country, category, sources, or query").
Proof.
  intros Hnone. destruct arguments as [a |]; [| eexists; split; [reflexivity | by left]].
  destruct (Hnone a eq_refl) as (Hc & Hg & Hs & Hq).
  unfold handle_call_tool. destruct (bool_decide (a = ∅)).
  - eexists; split; [reflexivity | by left].
  - change (String.eqb "get-top-headlines" "search-news") with false.
    change (String.eqb "get-top-headlines" "get-top-headlines") with true.
    cbv iota. unfold existsb, arg_in. rewrite Hc, Hg, Hs, Hq.
    rewrite bool_decide_false by (by intros [? ?]). simpl.
    eexists; split; [reflexivity | by right].
Qed.

(** A part of the title is built whenever its text can be. *)
Lemma title_part_returns (arguments : dict) (name : string)
    (part : json -> result string) (title_parts : list string) :
  (forall v, arguments !! name = Some v -> exists p, part v = Return p) ->
  exists parts, title_part arguments name part title_parts = Return parts.
Proof.
  intros Hpart. unfold title_part, arg_get.
  destruct (arguments !! name) as [v |] eqn:E; simpl; [| eauto].
  destruct (truthy v); [| eauto].
  destruct (Hpart v eq_refl) as [p ->]. simpl. eauto.
Qed.

Lemma country_part_returns (arguments : dict) (title_parts : list string) :
  country_is_text arguments ->
  exists parts,
    title_part arguments "country"
      (fun country => u ← py_upper country; Return ("country: " ++ u)) title_parts
    = Return parts.
Proof.
  intros Hc. apply title_part_returns. intros v Hv.
  destruct Hc as [Hc | [c Hc]]; rewrite Hc in Hv; [done |].
  injection Hv as <-. simpl. eauto.
Qed.




End Dispatch.

(** ** The code run in the sample environment *)

(** An upstream that answers every request with the same response. *)
Definition answering (r : response) : request -> result response := fun _ => Return r.

Definition bad_request : response := Response 400 "pageSize is out of range" (Raise (Exn ValueError "")).

Definition error_payload : dict :=
  {[ "status" := JStr "error"; "code" := JStr "apiKeyDisabled";
     "message" := JStr "Your API key has been disabled." ]}.

(** Seven articles that differ in their titles. *)
Definition seven_articles : list json :=
  (fun t => JObj {[ "title" := JStr t ]}) <$> ["a"; "b"; "c"; "d"; "e"; "f"; "g"].

Definition seven_payload : dict :=
  {[ "status" := JStr "ok"; "totalResults" := JInt 7; "articles" := JArr seven_articles ]}.

Lemma status_codes_classified_witness :
  med_return (make_news_api_request (env := Sample.env) (answering bad_request) "everything" None)
  = Return (JStr "Bad request. Error details: pageSize is out of range").
Proof.
  destruct (status_codes_classified (env := Sample.env) (answering bad_request) "everything" None
              (Request "https://newsapi.org/v2/everything" {[ "apiKey" := JStr "k3y" ]} 30)
              bad_request) as (_ & _ & H); [reflexivity | reflexivity |].
  apply H. reflexivity.
Defined.

Lemma ok_bodies_classified_witness :
  med_return (make_news_api_request (env := Sample.env)
                (answering (Response 200 "" (Return (JObj error_payload)))) "everything" None)
  = Return (JStr "News API error: Your API key has been disabled.").
Proof.
  destruct (ok_bodies_classified (env := Sample.env)
              (answering (Response 200 "" (Return (JObj error_payload)))) "everything" None
              (Request "https://newsapi.org/v2/everything" {[ "apiKey" := JStr "k3y" ]} 30)
              (Response 200 "" (Return (JObj error_payload))) error_payload)
    as [H _]; [reflexivity | reflexivity | simpl; lia | reflexivity |].
  destruct H as [H _]; [reflexivity |]. exact H.
Defined.

Lemma absent_fields_have_placeholders_witness :
  format_source (env := Sample.env) (JObj {[ "id" := JStr "bbc-news" ]})
  = Return (source_block "N/A" "bbc-news" "N/A" "N/A" "N/A" "N/A" "N/A").
Proof.
  destruct (absent_fields_have_placeholders (env := Sample.env)
              {[ "title" := JStr "t" ]} {[ "id" := JStr "bbc-news" ]}) as (_ & H & _).
  - left. reflexivity.
  - left. reflexivity.
  - exact H.
Defined.

Lemma lists_rendered_up_to_limit_witness :
  length (labelled "Article " (format_article (env := Sample.env))
            (take (Z.to_nat 5 `min` length seven_articles) seven_articles)) = 5%nat.
Proof.
  destruct (lists_rendered_up_to_limit (env := Sample.env) seven_articles 5)
    as (_ & _ & _ & H & _); [lia |].
  exact H.
Defined.

Lemma published_timestamp_rendered_witness :
  format_article (env := Sample.env) (JObj {[ "publishedAt" := JStr "2024-03-01T12:30:00Z" ]})
  = Return (article_block "N/A" "N/A" "N/A" "2024-03-01 12:30 UTC" "N/A" "N/A").
Proof.
  destruct (published_timestamp_rendered (env := Sample.env)
              {[ "publishedAt" := JStr "2024-03-01T12:30:00Z" ]} "2024-03-01T12:30:00Z")
    as (H & _).
  - left. reflexivity.
  - reflexivity.
  - discriminate.
  - apply (H (Datetime 2024 3 1 12 30 0 0 (Some 0))). reflexivity.
Defined.

Lemma mediator_catches_exceptions_witness :
  (exists data,
      med_return (make_news_api_request (env := Sample.env) (answering bad_request)
                    "everything" None) = Return (JObj data))
  \/ (exists message,
        med_return (make_news_api_request (env := Sample.env) (answering bad_request)
                      "everything" None) = Return (JStr message)).
Proof.
  destruct (mediator_catches_exceptions (env := Sample.env) (answering bad_request)
              "everything" None
              (Request "https://newsapi.org/v2/everything" {[ "apiKey" := JStr "k3y" ]} 30))
    as [H _]; [reflexivity |].
  apply H; [exact I |]. intros resp [= <-]. reflexivity.
Defined.

Lemma headlines_need_a_filter_witness :
  exists message,
    handle_call_tool (env := Sample.env) (answering bad_request) "get-top-headlines"
      (Some {[ "page_size" := JInt 100 ]})
    = Dispatched (Return [TextContent "text" message]) []
    /\ (message = "Missing arguments for the request"
        \/ message = "You must specify at least one of: country, category, sources, or query").
Proof.
  apply (headlines_need_a_filter (env := Sample.env)).
  intros a [= <-]. repeat split; reflexivity.
Defined.


(** C4, the article with no field at all: its Published line reads
    [Unknown date], not [N/A]. *)
Lemma empty_article_shows_unknown_date :
  format_article (env := Sample.env) (JObj ∅)
  = Return (article_block "N/A" "N/A" "N/A" "Unknown date" "N/A" "N/A")
  /\ article_block "N/A" "N/A" "N/A" "Unknown date" "N/A" "N/A"
     <> article_block "N/A" "N/A" "N/A" "N/A" "N/A" "N/A".
Proof. split; [reflexivity |]. intros H. vm_compute in H. discriminate. Qed.

(** C5, three articles under the limit -1: two blocks are rendered, where
    [min(limit, length)] is -1, and the last line counts four more. *)
Lemma negative_limit_counts_from_the_end :
  format_articles (env := Sample.env) (JArr (take 3 seven_articles)) (-1)
  = Return (String.concat nl
              (app (labelled "Article " (format_article (env := Sample.env)) (take 2 seven_articles))
                   [nl ++ "... and 4 more articles"]))
  /\ length (labelled "Article " (format_article (env := Sample.env)) (take 2 seven_articles)) = 2%nat
  /\ Z.min (-1) (Z.of_nat (length (take 3 seven_articles))) = -1.
Proof. repeat split; reflexivity. Qed.

(** C6, the empty string: [fromisoformat] does not parse it, and the
    Published line reads [Unknown date], not the string as it came. *)
Lemma empty_timestamp_shows_unknown_date :
  fromisoformat (Environment := Sample.env) (replace_Z "") = None
  /\ format_article (env := Sample.env) (JObj {[ "publishedAt" := JStr "" ]})
     = Return (article_block "N/A" "N/A" "N/A" "Unknown date" "N/A" "N/A")
  /\ article_block "N/A" "N/A" "N/A" "Unknown date" "N/A" "N/A"
     <> article_block "N/A" "N/A" "N/A" "" "N/A" "N/A".
Proof. split; [reflexivity |]. split; [reflexivity |]. intros H. vm_compute in H. discriminate. Qed.

(** C9, a mapping with one entry: after the call it has two. *)
Lemma caller_mapping_is_changed :
  med_params (make_news_api_request (env := Sample.env) (answering bad_request) "everything"
                (Some {[ "q" := JStr "rocq" ]}))
  = Some {[ "q" := JStr "rocq"; "apiKey" := JStr "k3y" ]}
  /\ ({[ "q" := JStr "rocq"; "apiKey" := JStr "k3y" ]} : dict) !! "apiKey" = Some (JStr "k3y")
  /\ ({[ "q" := JStr "rocq" ]} : dict) !! "apiKey" = None.
Proof. repeat split; reflexivity. Qed.

(** Seven articles under the limit 5: five blocks, then the line
    [... and 2 more articles]. *)
Example seven_articles_limit_five :
  format_articles (env := Sample.env) (JArr seven_articles) 5
  = Return (String.concat nl
              (app (labelled "Article " (format_article (env := Sample.env)) (take 5 seven_articles))
                   [nl ++ "... and 2 more articles"])).
Proof. reflexivity. Qed.

(** A string that is not a timestamp is shown as it came. *)
Example not_a_date_verbatim :
  format_article (env := Sample.env) (JObj {[ "publishedAt" := JStr "not-a-date" ]})
  = Return (article_block "N/A" "N/A" "N/A" "not-a-date" "N/A" "N/A").
Proof. reflexivity. Qed.

(** A field that is there with the value null is shown as [None]. *)
Example null_author_shown_as_None :
  format_article (env := Sample.env) (JObj {[ "author" := JNull ]})
  = Return (article_block "N/A" "N/A" "None" "Unknown date" "N/A" "N/A").
Proof. reflexivity. Qed.

(** ** Further properties of the mediator *)

(** An upstream whose call, and whose [response.json()], raise nothing
    outside [Exception]. *)
Definition ordinary_upstream (client : request -> result response) : Prop :=
  (forall req, ordinary (client req))
  /\ (forall req resp, client req = Return resp -> ordinary (json_body resp)).

Section MediatorOutcomes.
Context {env : Environment}.

Variable client : request -> result response.
Variable endpoint : string.
Variable params : option dict.

(** The mediator returns, with an object or a string, when the upstream
    raises nothing outside [Exception]. *)
Lemma mediator_returns :
  ordinary_upstream client ->
  exists v, med_return (make_news_api_request client endpoint params) = Return v
            /\ ((exists data, v = JObj data) \/ (exists message, v = JStr message)).
Proof.
  intros [Hclient Hbody].
  unfold make_news_api_request; cbn [med_return].
  match goal with |- context [client ?r] => specialize (Hclient r); specialize (Hbody r) end.
  destruct (client _) as [resp | [cls msg]]; cbn [mbind result_bind try_].
  - specialize (Hbody resp eq_refl).
    destruct (status_code resp =? 429); [eexists; split; [reflexivity | right; eauto] |].
    destruct (status_code resp =? 401); [eexists; split; [reflexivity | right; eauto] |].
    destruct (status_code resp =? 400); [eexists; split; [reflexivity | right; eauto] |].
    unfold raise_for_status.
    destruct ((200 <=? status_code resp) && (status_code resp <=? 299));
      cbn [mbind result_bind try_ dispatch catches handle exn_cls is_TimeoutException
             is_ConnectError is_HTTPStatusError];
      [| eexists; split; [reflexivity | right; eauto]].
    destruct (json_body resp) as [data | [cls msg]]; cbn [mbind result_bind try_].
    + destruct data as [ | b | z | s | l | m]; simpl;
        try (eexists; split; [reflexivity | right; eauto]).
      destruct (py_eq_str _ _); simpl; eexists; (split; [reflexivity |]); eauto.
    + destruct cls; try discriminate Hbody; simpl; eexists; (split; [reflexivity |]); eauto.
  - destruct cls; try discriminate Hclient; simpl; eexists; (split; [reflexivity |]); eauto.
Qed.

(** X1: a response whose status is neither 2xx nor one of 429, 401 and
    400 gives the message of the status error raised by
    [raise_for_status], followed by the body of the response. *)
Theorem other_statuses_are_http_errors (req : request) (resp : response) :
  med_calls (make_news_api_request client endpoint params) = [req] ->
  client req = Return resp ->
  status_code resp < 200 \/ 299 < status_code resp ->
  status_code resp <> 429 -> status_code resp <> 401 -> status_code resp <> 400 ->
  med_return (make_news_api_request client endpoint params)
  = Return (JStr ("HTTP error occurred: " ++ status_error (status_code resp) (req_url req)
                  ++ " - Response: " ++ text resp)).
Proof.
  intros Hcalls Hresp Hout H429 H401 H400. rewrite med_calls_single in Hcalls.
  injection Hcalls as <-.
  unfold make_news_api_request; cbn [med_return req_url]. rewrite Hresp.
  cbn [mbind result_bind].
  destruct (Z.eqb_spec (status_code resp) 429) as [? | _]; [done |].
  destruct (Z.eqb_spec (status_code resp) 401) as [? | _]; [done |].
  destruct (Z.eqb_spec (status_code resp) 400) as [? | _]; [done |].
  unfold raise_for_status.
  replace ((200 <=? status_code resp) && (status_code resp <=? 299)) with false.
  - reflexivity.
  - symmetry. apply andb_false_iff. destruct Hout; [left | right]; apply Z.leb_gt; lia.
Qed.

(** X2: an exception raised by the HTTP call that derives from
    [Exception] is turned into a message by the first clause that catches
    it: a timeout and a connection failure into their fixed sentences, a
    status error into its text and the body of its response, anything
    else into [Unexpected error occurred] followed by the text of the
    exception.  An exception that does not derive from [Exception] is not
    turned into a message: the mediator raises it. *)
Theorem raised_exceptions_become_messages (req : request) (e : exn) :
  med_calls (make_news_api_request client endpoint params) = [req] ->
  client req = Raise e ->
  med_return (make_news_api_request client endpoint params)
  = if Exception (exn_cls e) then
      Return (JStr
        match exn_cls e with
        | TimeoutException =>
            "Request timed out after 30 seconds. The News API may be experiencing delays."
        | ConnectError =>
            "Failed to connect to News API. Please check your internet connection."
        | HTTPStatusError body =>
            "HTTP error occurred: " ++ exn_str e ++ " - Response: " ++ body
        | _ => "Unexpected error occurred: " ++ exn_str e
        end)
    else Raise e.
Proof.
  intros Hcalls Hresp. rewrite med_calls_single in Hcalls. injection Hcalls as <-.
  unfold make_news_api_request; cbn [med_return]. rewrite Hresp.
  destruct e as [[] msg]; reflexivity.
Qed.

(** X3: a 2xx response whose body is JSON but not an object, or is not
    JSON at all, gives an [Unexpected error occurred] message: the
    attribute error of [data.get] in the first case, the text of the
    decoding error in the second. *)
Theorem unusable_bodies_are_unexpected_errors (req : request) (resp : response) :
  med_calls (make_news_api_request client endpoint params) = [req] ->
  client req = Return resp ->
  200 <= status_code resp <= 299 ->
  (forall v, json_body resp = Return v -> (forall m, v <> JObj m) ->
     med_return (make_news_api_request client endpoint params)
     = Return (JStr ("Unexpected error occurred: '" ++ type_name v
                     ++ "' object has no attribute 'get'")))
  /\ (forall msg, json_body resp = Raise (Exn ValueError msg) ->
        med_return (make_news_api_request client endpoint params)
        = Return (JStr ("Unexpected error occurred: " ++ msg))).
Proof.
  intros Hcalls Hresp [Hlo Hhi]. rewrite med_calls_single in Hcalls.
  injection Hcalls as <-.
  unfold make_news_api_request; cbn [med_return]. rewrite Hresp.
  cbn [mbind result_bind].
  destruct (Z.eqb_spec (status_code resp) 429) as [? | _]; [lia |].
  destruct (Z.eqb_spec (status_code resp) 401) as [? | _]; [lia |].
  destruct (Z.eqb_spec (status_code resp) 400) as [? | _]; [lia |].
  unfold raise_for_status.
  replace (200 <=? status_code resp) with true by (symmetry; apply Z.leb_le; lia).
  replace (status_code resp <=? 299) with true by (symmetry; apply Z.leb_le; lia).
  cbn [andb mbind result_bind]. split.
  - intros v -> Hv. destruct v; try reflexivity. by exfalso; eapply Hv.
  - intros msg ->. reflexivity.
Qed.

End MediatorOutcomes.

(** ** Further properties of the formatter *)

Section FormatterEdges.
Context {env : Environment}.

(** X4: an item that is not a mapping is rendered as the error text of
    its renderer, and so is an article whose [source] is there but is not
    a mapping: the failure stays inside the item. *)
Theorem items_that_are_not_mappings (v : json) (a : dict) (src : json) :
  (forall m, v <> JObj m) -> (forall m, src <> JObj m) ->
  a !! "source" = Some src -> published_is_text a ->
  format_article v
  = Return ("Error formatting article data: '" ++ type_name v
            ++ "' object has no attribute 'get'")
  /\ format_source v
     = Return ("Error formatting source data: '" ++ type_name v
               ++ "' object has no attribute 'get'")
  /\ format_article (JObj a)
     = Return ("Error formatting article data: '" ++ type_name src
               ++ "' object has no attribute 'get'").
Proof.
  intros Hv Hsrc Ha Hpub. split; [| split].
  - destruct v; try reflexivity. by exfalso; eapply Hv.
  - destruct v; try reflexivity. by exfalso; eapply Hv.
  - unfold format_article. cbn [py_get mbind result_bind]. rewrite Ha. cbn [default from_option id].
    assert (Hdate : exists d,
      (if truthy (default (JStr "") (a !! "publishedAt"))
       then try_
              (replaced ← py_replace_Z (default (JStr "") (a !! "publishedAt"));
               date_obj ← datetime_fromisoformat replaced;
               Return (strftime date_obj))
              [Except is_ValueError_or_TypeError
                 (fun _ => Return (py_str (default (JStr "") (a !! "publishedAt"))))]
       else Return "Unknown date") = Return d).
    { destruct Hpub as [-> | [-> | [p ->]]]; simpl; eauto.
      destruct (String.eqb p ""); simpl; eauto.
      unfold datetime_fromisoformat. destruct (fromisoformat _); simpl; eauto. }
    destruct Hdate as [d Hd].
    cbn [default from_option id] in Hd |- *. rewrite Hd. cbn [mbind result_bind].
    destruct src; try reflexivity. by exfalso; eapply Hsrc.
Qed.

(** X5: a [publishedAt] that is truthy and not a string has no [replace]
    method; the inner handler catches value and type errors only, so the
    whole article is rendered as the error text. *)
Theorem published_that_is_not_text (a : dict) (v : json) :
  a !! "publishedAt" = Some v -> truthy v = true -> (forall s, v <> JStr s) ->
  format_article (JObj a)
  = Return ("Error formatting article data: '" ++ type_name v
            ++ "' object has no attribute 'replace'").
Proof.
  intros Ha Hv Hs. unfold format_article. cbn [py_get mbind result_bind].
  rewrite Ha. cbn [default from_option id]. rewrite Hv.
  destruct v; try reflexivity; try discriminate. by exfalso; eapply Hs.
Qed.

End FormatterEdges.

Section ListEdges.
Context {env : Environment}.

Lemma slice_to_negative {A} (l : list A) (limit : Z) :
  limit < 0 -> slice_to l limit = take (length l - Z.to_nat (- limit)) l.
Proof.
  intros H. unfold slice_to.
  replace (0 <=? limit) with false by (symmetry; apply Z.leb_gt; lia).
  f_equal. lia.
Qed.

(** X6: under a negative limit the slice counts from the end: the blocks
    are those of all items but the last [-limit], and the closing line is
    always there, counting [length - limit] items. *)
Theorem negative_limit_drops_from_the_end (items : list json) (limit : Z) :
  limit < 0 -> items <> [] ->
  format_articles (JArr items) limit
  = Return (String.concat nl
              (app (labelled "Article " format_article
                      (take (length items - Z.to_nat (- limit)) items))
                   [nl ++ "... and " ++ str_of_Z (Z.of_nat (length items) - limit)
                    ++ " more articles"]))
  /\ format_sources (JArr items) limit
     = Return (String.concat nl
                 (app (labelled "Source " format_source
                         (take (length items - Z.to_nat (- limit)) items))
                      [nl ++ "... and " ++ str_of_Z (Z.of_nat (length items) - limit)
                       ++ " more sources"])).
Proof.
  intros Hneg Hne.
  rewrite format_articles_list, format_sources_list by done.
  rewrite slice_to_negative by done. unfold omitted.
  by replace (limit <? Z.of_nat (length items)) with true by (symmetry; apply Z.ltb_lt; lia).
Qed.

(** X7: given something that is not a list, the list renderers answer
    with the empty sentence when the value is falsy (null, false, 0, the
    empty string, the empty mapping) and with their error text when it is
    a truthy value that cannot be sliced (a mapping, a number, true). *)
Theorem values_that_are_not_lists (v : json) (limit : Z) :
  (forall l, v <> JArr l) -> (forall s, v <> JStr s) ->
  (truthy v = false ->
     format_articles v limit = Return "No articles found."
     /\ format_sources v limit = Return "No sources found.")
  /\ (truthy v = true ->
      format_articles v limit
      = Return ("Error formatting articles: " ++ exn_str (subscript_error v))
      /\ format_sources v limit
         = Return ("Error formatting sources: " ++ exn_str (subscript_error v))).
Proof.
  intros Hl Hs. unfold format_articles, format_sources. split; intros ->; cbn [negb].
  - by split.
  - destruct v as [ | b | z | s | l | m];
      cbn [py_sequence mbind result_bind try_ dispatch catches handle];
      rewrite ?subscript_error_caught; try (by split).
    + by exfalso; eapply Hs.
    + by exfalso; eapply Hl.
Qed.

End ListEdges.

(** ** Further properties of the dispatch *)


Section DispatchEdges.
Context {env : Environment}.

Variable client : request -> result response.

(** X8: a call is answered before any request is made when it has no
    arguments (for every tool name, known or not), when the tool is not
    one of the three, and when search-news has no query or an empty
    one. *)
Theorem rejected_before_the_network (name : string) (arguments : dict) :
  handle_call_tool client name None = reply "Missing arguments for the request"
  /\ handle_call_tool client name (Some ∅) = reply "Missing arguments for the request"
  /\ (arguments <> ∅ -> name <> "search-news" -> name <> "get-top-headlines" ->
      name <> "get-news-sources" ->
      handle_call_tool client name (Some arguments) = reply ("Unknown tool: " ++ name))
  /\ (arguments <> ∅ -> truthy (arg_get arguments "query" JNull) = false ->
      handle_call_tool client "search-news" (Some arguments) = reply "Missing query parameter").
Proof.
  split; [reflexivity |]. split; [reflexivity |]. split.
  - intros Ha H1 H2 H3. unfold handle_call_tool. rewrite bool_decide_false by done.
    destruct (String.eqb_spec name "search-news"); [done |].
    destruct (String.eqb_spec name "get-top-headlines"); [done |].
    by destruct (String.eqb_spec name "get-news-sources").
  - intros Ha Hq. unfold handle_call_tool. rewrite bool_decide_false by done.
    change (String.eqb "search-news" "search-news") with true. cbv iota.
    by rewrite Hq.
Qed.

(** X9: when the mediator returns an error string, each tool returns that
    string after [Error: ] as its one text. *)
Theorem mediator_errors_are_reported (arguments : dict) (message : string) :
  arguments <> ∅ ->
  (truthy (arg_get arguments "query" JNull) = true ->
   med_return (make_news_api_request client "everything" (Some (search_params arguments)))
   = Return (JStr message) ->
   tool_return (handle_call_tool client "search-news" (Some arguments))
   = Return [TextContent "text" ("Error: " ++ message)])
  /\ (existsb (arg_in arguments) ["country"; "category"; "sources"; "query"] = true ->
      med_return (make_news_api_request client "top-headlines" (Some (headlines_params arguments)))
      = Return (JStr message) ->
      tool_return (handle_call_tool client "get-top-headlines" (Some arguments))
      = Return [TextContent "text" ("Error: " ++ message)])
  /\ (med_return (make_news_api_request client "top-headlines/sources"
                    (Some (sources_params arguments)))
      = Return (JStr message) ->
      tool_return (handle_call_tool client "get-news-sources" (Some arguments))
      = Return [TextContent "text" ("Error: " ++ message)]).
Proof.
  intros Ha. split; [| split].
  - intros Hq Hmed. unfold handle_call_tool. rewrite bool_decide_false by done.
    change (String.eqb "search-news" "search-news") with true. cbv iota.
    rewrite Hq. cbn [negb tool_return]. by rewrite Hmed.
  - intros Hany Hmed. unfold handle_call_tool. rewrite bool_decide_false by done.
    change (String.eqb "get-top-headlines" "search-news") with false.
    change (String.eqb "get-top-headlines" "get-top-headlines") with true. cbv iota.
    rewrite Hany. cbn [negb tool_return]. by rewrite Hmed.
  - intros Hmed. unfold handle_call_tool. rewrite bool_decide_false by done.
    change (String.eqb "get-news-sources" "search-news") with false.
    change (String.eqb "get-news-sources" "get-top-headlines") with false.
    change (String.eqb "get-news-sources" "get-news-sources") with true. cbv iota.
    cbn [tool_return]. by rewrite Hmed.
Qed.

(** X10: when the payload has no items (the list is missing, empty or
    null), each tool returns its own sentence instead of a rendering; the
    sentence of search-news quotes the query. *)
Theorem empty_payloads_have_their_sentences (arguments data : dict) :
  arguments <> ∅ ->
  (truthy (arg_get arguments "query" JNull) = true ->
   med_return (make_news_api_request client "everything" (Some (search_params arguments)))
   = Return (JObj data) ->
   truthy (default (JArr []) (data !! "articles")) = false ->
   tool_return (handle_call_tool client "search-news" (Some arguments))
   = Return [TextContent "text"
       ("No articles found for query: '" ++ py_str (arg_get arguments "query" JNull) ++ "'")])
  /\ (existsb (arg_in arguments) ["country"; "category"; "sources"; "query"] = true ->
      med_return (make_news_api_request client "top-headlines" (Some (headlines_params arguments)))
      = Return (JObj data) ->
      truthy (default (JArr []) (data !! "articles")) = false ->
      tool_return (handle_call_tool client "get-top-headlines" (Some arguments))
      = Return [TextContent "text" "No headlines found matching your criteria"])
  /\ (med_return (make_news_api_request client "top-headlines/sources"
                    (Some (sources_params arguments)))
      = Return (JObj data) ->
      truthy (default (JArr []) (data !! "sources")) = false ->
      tool_return (handle_call_tool client "get-news-sources" (Some arguments))
      = Return [TextContent "text" "No news sources found matching your criteria"]).
Proof.
  intros Ha. split; [| split].
  - intros Hq Hmed Hnone. unfold handle_call_tool. rewrite bool_decide_false by done.
    change (String.eqb "search-news" "search-news") with true. cbv iota.
    rewrite Hq. cbn [negb tool_return]. rewrite Hmed.
    cbn [mbind result_bind py_get]. by rewrite Hnone.
  - intros Hany Hmed Hnone. unfold handle_call_tool. rewrite bool_decide_false by done.
    change (String.eqb "get-top-headlines" "search-news") with false.
    change (String.eqb "get-top-headlines" "get-top-headlines") with true. cbv iota.
    rewrite Hany. cbn [negb tool_return]. rewrite Hmed.
    cbn [mbind result_bind py_get]. by rewrite Hnone.
  - intros Hmed Hnone. unfold handle_call_tool. rewrite bool_decide_false by done.
    change (String.eqb "get-news-sources" "search-news") with false.
    change (String.eqb "get-news-sources" "get-top-headlines") with false.
    change (String.eqb "get-news-sources" "get-news-sources") with true. cbv iota.
    cbn [tool_return]. rewrite Hmed.
    cbn [mbind result_bind py_get]. by rewrite Hnone.
Qed.



End DispatchEdges.

(** ** The translation of the arguments *)

(** The value of an argument that is given: there and truthy. *)
Definition given (arguments : dict) (name : string) : option json :=
  let value := arg_get arguments name JNull in
  if truthy value then Some value else None.

Lemma lookup_add_if_given (arguments : dict) (name key : string) (params : dict) (k : string) :
  add_if_given arguments name key params !! k
  = if bool_decide (k = key) then from_option Some (params !! k) (given arguments name)
    else params !! k.
Proof.
  unfold add_if_given, given. case_bool_decide as Hk.
  - subst k. destruct (truthy _); [apply lookup_insert_eq | done].
  - destruct (truthy _); [by apply lookup_insert_ne | done].
Qed.

(** A lookup in the parameters of a tool, at a key that is known. *)
Ltac lookup_params :=
  rewrite !lookup_add_if_given;
  repeat (case_bool_decide; try done);
  cbn [from_option];
  try (destruct (given _ _); cbn [from_option]);
  simplify_map_eq; done.

(** X12: what search-news sends: the query as [q]; [pageSize], [page],
    [language] and [sortBy] from [page_size], [page], [language] and
    [sort_by], or 20, 1, [en] and [publishedAt] when these are absent;
    [from], [to] and [sources] exactly when [from_date], [to_date] and
    [sources] are given; and no other key, whatever else the arguments
    hold. *)
Theorem search_arguments_translated (arguments : dict) :
  search_params arguments !! "q" = Some (arg_get arguments "query" JNull)
  /\ search_params arguments !! "pageSize" = Some (arg_get arguments "page_size" (JInt 20))
  /\ search_params arguments !! "page" = Some (arg_get arguments "page" (JInt 1))
  /\ search_params arguments !! "language" = Some (arg_get arguments "language" (JStr "en"))
  /\ search_params arguments !! "sortBy"
     = Some (arg_get arguments "sort_by" (JStr "publishedAt"))
  /\ search_params arguments !! "from" = given arguments "from_date"
  /\ search_params arguments !! "to" = given arguments "to_date"
  /\ search_params arguments !! "sources" = given arguments "sources"
  /\ forall k, k ∉ ["q"; "pageSize"; "page"; "language"; "sortBy"; "from"; "to"; "sources"] ->
       search_params arguments !! k = None.
Proof.
  unfold search_params.
  split_and!; try by lookup_params.
  intros k Hk. rewrite !lookup_add_if_given.
  repeat (case_bool_decide; [subst k; exfalso; apply Hk; set_solver |]).
  rewrite !lookup_insert_ne by (intros <-; apply Hk; set_solver).
  apply lookup_singleton_ne. intros <-; apply Hk; set_solver.
Qed.

(** X13: what get-top-headlines sends: [pageSize] and [page] as above;
    [country], [category] and [sources] exactly when they are given; the
    query, when given, under the key [q] and never under [query]; and no
    other key. *)
Theorem headlines_arguments_translated (arguments : dict) :
  headlines_params arguments !! "pageSize" = Some (arg_get arguments "page_size" (JInt 20))
  /\ headlines_params arguments !! "page" = Some (arg_get arguments "page" (JInt 1))
  /\ headlines_params arguments !! "country" = given arguments "country"
  /\ headlines_params arguments !! "category" = given arguments "category"
  /\ headlines_params arguments !! "sources" = given arguments "sources"
  /\ headlines_params arguments !! "q" = given arguments "query"
  /\ forall k, k ∉ ["pageSize"; "page"; "country"; "category"; "sources"; "q"] ->
       headlines_params arguments !! k = None.
Proof.
  unfold headlines_params. cbn [fold_left].
  change (String.eqb "country" "query") with false.
  change (String.eqb "category" "query") with false.
  change (String.eqb "sources" "query") with false.
  change (String.eqb "query" "query") with true. cbv iota.
  split_and!; try by lookup_params.
  intros k Hk. rewrite !lookup_add_if_given.
  repeat (case_bool_decide; [subst k; exfalso; apply Hk; set_solver |]).
  rewrite !lookup_insert_ne by (intros <-; apply Hk; set_solver).
  apply lookup_singleton_ne. intros <-; apply Hk; set_solver.
Qed.

(** X14: what get-news-sources sends: [category], [language] and
    [country] exactly when they are given, and nothing else: no page, no
    page size. *)
Theorem sources_arguments_translated (arguments : dict) :
  sources_params arguments !! "category" = given arguments "category"
  /\ sources_params arguments !! "language" = given arguments "language"
  /\ sources_params arguments !! "country" = given arguments "country"
  /\ forall k, k ∉ ["category"; "language"; "country"] ->
       sources_params arguments !! k = None.
Proof.
  unfold sources_params. cbn [fold_left].
  split_and!; try by lookup_params.
  intros k Hk. rewrite !lookup_add_if_given.
  repeat (case_bool_decide; [subst k; exfalso; apply Hk; set_solver |]).
  apply lookup_empty.
Qed.

Section DispatchPaths.
Context {env : Environment}.

Variable client : request -> result response.

(** X15: the check of get-top-headlines looks at the keys, not at the
    values: once one of the four keys is there the request goes out, and
    when none of the four has a truthy value it goes out with the page
    and the page size alone. *)
Theorem present_filter_passes_the_check (arguments : dict) (key : string) :
  key ∈ ["country"; "category"; "sources"; "query"] ->
  is_Some (arguments !! key) ->
  tool_calls (handle_call_tool client "get-top-headlines" (Some arguments))
  = [Request (NEWS_API_BASE ++ "/top-headlines")
       (<["apiKey" := api_key_value]> (headlines_params arguments)) 30]
  /\ (given arguments "country" = None -> given arguments "category" = None ->
      given arguments "sources" = None -> given arguments "query" = None ->
      headlines_params arguments
      = {[ "pageSize" := arg_get arguments "page_size" (JInt 20);
           "page" := arg_get arguments "page" (JInt 1) ]}).
Proof.
  intros Hkey Hsome. split.
  - unfold handle_call_tool.
    rewrite bool_decide_false by (intros ->; rewrite lookup_empty in Hsome; by destruct Hsome).
    change (String.eqb "get-top-headlines" "search-news") with false.
    change (String.eqb "get-top-headlines" "get-top-headlines") with true. cbv iota.
    replace (existsb (arg_in arguments) ["country"; "category"; "sources"; "query"]) with true;
      [reflexivity |].
    symmetry. apply existsb_exists. exists key. split.
    + by apply list_elem_of_In.
    + unfold arg_in. by apply bool_decide_eq_true.
  - unfold given, headlines_params, add_if_given. cbn [fold_left].
    intros Hc Hg Hs Hq.
    destruct (truthy (arg_get arguments "country" JNull)); [done |].
    destruct (truthy (arg_get arguments "category" JNull)); [done |].
    destruct (truthy (arg_get arguments "sources" JNull)); [done |].
    by destruct (truthy (arg_get arguments "query" JNull)).
Qed.

(** X16: with a [country] that is a string when it is there, and an
    upstream that raises nothing outside [Exception], search-news and
    get-top-headlines return exactly one text content, for every response
    and every payload: they raise nothing; get-news-sources does so as
    well when the [sources] of the payload is a list. *)
Theorem one_text_content (name : string) (arguments : option dict) :
  ordinary_upstream client ->
  (forall a, arguments = Some a -> country_is_text a) ->
  (name = "get-news-sources" ->
   forall a data v,
     arguments = Some a ->
     med_return (make_news_api_request client "top-headlines/sources" (Some (sources_params a)))
     = Return (JObj data) ->
     data !! "sources" = Some v -> exists l, v = JArr l) ->
  exists text,
    tool_return (handle_call_tool client name arguments) = Return [TextContent "text" text].
Proof.
  intros Hup Hcountry Hsources. unfold handle_call_tool.
  destruct arguments as [a |]; [| by eexists].
  specialize (Hcountry a eq_refl).
  destruct (bool_decide (a = ∅)); [by eexists |].
  destruct (String.eqb_spec name "search-news") as [-> | _].
  { destruct (negb (truthy (arg_get a "query" JNull))); [by eexists |].
    cbn [tool_return].
    destruct (mediator_returns client "everything" (Some (search_params a)) Hup)
      as (v & -> & [[data ->] | [msg ->]]); cbn [mbind result_bind py_get]; [| by eexists].
    destruct (negb _); [by eexists |].
    destruct (format_articles_returns (default (JArr []) (data !! "articles")) 5) as [t ->].
    by eexists. }
  destruct (String.eqb_spec name "get-top-headlines") as [-> | _].
  { destruct (negb (existsb _ _)); [by eexists |].
    cbn [tool_return].
    destruct (mediator_returns client "top-headlines" (Some (headlines_params a)) Hup)
      as (v & -> & [[data ->] | [msg ->]]); cbn [mbind result_bind py_get]; [| by eexists].
    destruct (negb _); [by eexists |].
    destruct (format_articles_returns (default (JArr []) (data !! "articles")) 5) as [t ->].
    cbn [mbind result_bind].
    destruct (country_part_returns a [] Hcountry) as [p1 ->]. cbn [mbind result_bind].
    edestruct (title_part_returns a "category") as [p2 ->]; [by eauto |].
    cbn [mbind result_bind].
    edestruct (title_part_returns a "sources") as [p3 ->]; [by eauto |].
    cbn [mbind result_bind].
    edestruct (title_part_returns a "query") as [p4 ->]; [by eauto |].
    by eexists. }
  destruct (String.eqb_spec name "get-news-sources") as [-> | _]; [| by eexists].
  cbn [tool_return].
  destruct (mediator_returns client "top-headlines/sources" (Some (sources_params a)) Hup)
    as (v & Hv & [[data ->] | [msg ->]]); rewrite Hv; cbn [mbind result_bind py_get];
    [| by eexists].
  destruct (data !! "sources") as [s |] eqn:Hs; cbn [default from_option id];
    [| by eexists].
  destruct (Hsources eq_refl a data s eq_refl Hv Hs) as [l ->].
  destruct (negb _); [by eexists |].
  destruct (format_sources_returns (JArr l) 5) as [t ->]. cbn [mbind result_bind].
  edestruct (title_part_returns a "category") as [p1 ->]; [by eauto |].
  cbn [mbind result_bind].
  edestruct (title_part_returns a "language") as [p2 ->]; [by eauto |].
  cbn [mbind result_bind].
  destruct (country_part_returns a p2 Hcountry) as [p3 ->].
  by eexists.
Qed.

(** X17: get-top-headlines has no handler of its own: with results to
    show and a [country] that is truthy and not a string, the attribute
    error of [country.upper()] leaves the call. *)
Theorem country_that_is_not_text_raises (arguments data : dict) (v : json) :
  arguments !! "country" = Some v -> truthy v = true -> (forall s, v <> JStr s) ->
  med_return (make_news_api_request client "top-headlines" (Some (headlines_params arguments)))
  = Return (JObj data) ->
  truthy (default (JArr []) (data !! "articles")) = true ->
  tool_return (handle_call_tool client "get-top-headlines" (Some arguments))
  = Raise (attribute_error v "upper").
Proof.
  intros Hc Hv Hs Hmed Hitems. unfold handle_call_tool.
  rewrite bool_decide_false by (intros ->; by rewrite lookup_empty in Hc).
  change (String.eqb "get-top-headlines" "search-news") with false.
  change (String.eqb "get-top-headlines" "get-top-headlines") with true. cbv iota.
  replace (existsb (arg_in arguments) ["country"; "category"; "sources"; "query"]) with true.
  2:{ cbn [existsb]. unfold arg_in at 1. rewrite Hc.
      by rewrite bool_decide_true by eauto. }
  cbn [negb tool_return]. rewrite Hmed. cbn [mbind result_bind py_get].
  rewrite Hitems. cbn [negb].
  destruct (format_articles_returns (default (JArr []) (data !! "articles")) 5) as [t ->].
  cbn [mbind result_bind]. unfold title_part at 4, arg_get. rewrite Hc.
  cbn [default from_option id]. rewrite Hv.
  destruct v; try reflexivity. by exfalso; eapply Hs.
Qed.



End DispatchPaths.

(** ** The tools that are listed *)

(** [types.Tool(name=..., description=..., inputSchema=...)] *)
Record Tool : Type := MkTool {
  tool_name : string;
  tool_description : string;
  inputSchema : json
}.

Definition languages : json :=
  JArr (JStr <$> ["ar"; "de"; "en"; "es"; "fr"; "he"; "it"; "nl"; "no"; "pt"; "ru"; "sv";
                  "ud"; "zh"]).

Definition countries : json :=
  JArr (JStr <$> ["ae"; "ar"; "at"; "au"; "be"; "bg"; "br"; "ca"; "ch"; "cn"; "co"; "cu";
                  "cz"; "de"; "eg"; "fr"; "gb"; "gr"; "hk"; "hu"; "id"; "ie"; "il"; "in";
                  "it"; "jp"; "kr"; "lt"; "lv"; "ma"; "mx"; "my"; "ng"; "nl"; "no"; "nz";
                  "ph"; "pl"; "pt"; "ro"; "rs"; "ru"; "sa"; "se"; "sg"; "si"; "sk"; "th";
                  "tr"; "tw"; "ua"; "us"; "ve"; "za"]).

Definition categories : json :=
  JArr (JStr <$> ["business"; "entertainment"; "general"; "health"; "science"; "sports";
                  "technology"]).

Definition page_size_schema : json :=
  JObj {[ "type" := JStr "integer";
          "description" := JStr "Number of results to return per page (max 100)";
          "default" := JInt 20; "minimum" := JInt 1; "maximum" := JInt 100 ]}.

Definition page_schema : json :=
  JObj {[ "type" := JStr "integer";
          "description" := JStr "Page number for pagination";
          "default" := JInt 1; "minimum" := JInt 1 ]}.

Definition handle_list_tools : list Tool :=
  [ MkTool "search-news" "Search for news articles on any topic"
      (JObj {[
         "type" := JStr "object";
         "properties" := JObj {[
           "query" := JObj {[
             "type" := JStr "string";
             "description" :=
               JStr "Keywords or phrases to search for in the article title and body" ]};
           "from_date" := JObj {[
             "type" := JStr "string";
             "description" := JStr "Start date for article search (YYYY-MM-DD format)";
             "pattern" := JStr "^\d{4}-\d{2}-\d{2}$" ]};
           "to_date" := JObj {[
             "type" := JStr "string";
             "description" := JStr "End date for article search (YYYY-MM-DD format)";
             "pattern" := JStr "^\d{4}-\d{2}-\d{2}$" ]};
           "sources" := JObj {[
             "type" := JStr "string";
             "description" :=
               JStr "Comma-separated list of news sources to filter by (e.g., 'bbc-news,cnn')" ]};
           "language" := JObj {[
             "type" := JStr "string";
             "description" := JStr "Language of the articles";
             "enum" := languages;
             "default" := JStr "en" ]};
           "sort_by" := JObj {[
             "type" := JStr "string";
             "description" := JStr "Sort articles by relevancy, popularity, or publishedAt";
             "enum" := JArr [JStr "relevancy"; JStr "popularity"; JStr "publishedAt"];
             "default" := JStr "publishedAt" ]};
           "page_size" := page_size_schema;
           "page" := page_schema ]};
         "required" := JArr [JStr "query"] ]});
    MkTool "get-top-headlines" "Get top headlines by country, category, or source"
      (JObj {[
         "type" := JStr "object";
         "properties" := JObj {[
           "country" := JObj {[
             "type" := JStr "string";
             "description" := JStr "2-letter ISO 3166-1 country code";
             "enum" := countries ]};
           "category" := JObj {[
             "type" := JStr "string";
             "description" := JStr "Category to get headlines for";
             "enum" := categories ]};
           "sources" := JObj {[
             "type" := JStr "string";
             "description" :=
               JStr "Comma-separated list of news source IDs (e.g., 'bbc-news,cnn')" ]};
           "query" := JObj {[
             "type" := JStr "string";
             "description" := JStr "Keywords or phrases to search for in headlines" ]};
           "page_size" := page_size_schema;
           "page" := page_schema ]} ]});
    MkTool "get-news-sources" "Get available news sources"
      (JObj {[
         "type" := JStr "object";
         "properties" := JObj {[
           "category" := JObj {[
             "type" := JStr "string";
             "description" := JStr "Find sources that display news of this category";
             "enum" := categories ]};
           "language" := JObj {[
             "type" := JStr "string";
             "description" := JStr "Find sources that display news in a specific language";
             "enum" := languages ]};
           "country" := JObj {[
             "type" := JStr "string";
             "description" := JStr "Find sources that display news in a specific country";
             "enum" := countries ]} ]} ]}) ].

(** The entry [key] of a JSON object. *)
Definition member (key : string) (v : json) : option json :=
  match v with
  | JObj m => m !! key
  | _ => None
  end.

(** The schema of a declared argument of a tool. *)
Definition declared (t : Tool) (argument : string) : option json :=
  member "properties" (inputSchema t) ≫= member argument.

(** The default a tool declares for an argument. *)
Definition declared_default (t : Tool) (argument : string) : option json :=
  declared t argument ≫= member "default".

(** The arguments a tool requires. *)
Definition required (t : Tool) : list json :=
  match member "required" (inputSchema t) with
  | Some (JArr l) => l
  | _ => []
  end.

Section ListedTools.
Context {env : Environment}.

Variable client : request -> result response.

(** The lookups a tool makes in its arguments, rewritten to those of
    other arguments that agree on them. *)
Ltac same_argument H a k :=
  let E := fresh "E" in
  assert (E : a !! k = _) by (apply H; vm_compute; eauto);
  rewrite !E; clear E.

(** X19: a listed tool reads the arguments that its schema declares and
    no others: two calls whose arguments agree on the declared ones
    return the same and send the same, whatever else they carry. *)
Theorem undeclared_arguments_are_ignored (t : Tool) (a a' : dict) :
  t ∈ handle_list_tools -> a <> ∅ -> a' <> ∅ ->
  (forall k, is_Some (declared t k) -> a !! k = a' !! k) ->
  handle_call_tool client (tool_name t) (Some a)
  = handle_call_tool client (tool_name t) (Some a').
Proof.
  intros Ht Ha Ha' Hsame.
  unfold handle_list_tools in Ht.
  apply elem_of_cons in Ht as [-> | Ht]; [| apply elem_of_cons in Ht as [-> | Ht];
    [| apply list_elem_of_singleton in Ht as ->]].
  - unfold handle_call_tool, search_params, add_if_given, arg_get.
    rewrite !bool_decide_false by done.
    cbn [tool_name].
    same_argument Hsame a "query". same_argument Hsame a "page_size".
    same_argument Hsame a "page". same_argument Hsame a "language".
    same_argument Hsame a "sort_by". same_argument Hsame a "from_date".
    same_argument Hsame a "to_date". same_argument Hsame a "sources".
    reflexivity.
  - unfold handle_call_tool, headlines_params, title_part, add_if_given, arg_in, arg_get.
    rewrite !bool_decide_false by done.
    cbn [tool_name fold_left existsb].
    same_argument Hsame a "country". same_argument Hsame a "category".
    same_argument Hsame a "sources". same_argument Hsame a "query".
    same_argument Hsame a "page_size". same_argument Hsame a "page".
    reflexivity.
  - unfold handle_call_tool, sources_params, title_part, add_if_given, arg_get.
    rewrite !bool_decide_false by done.
    cbn [tool_name fold_left].
    same_argument Hsame a "category". same_argument Hsame a "language".
    same_argument Hsame a "country".
    reflexivity.
Qed.

(** X20: the defaults that the schemas declare are the ones the tools
    use: when [page_size], [page], [language] or [sort_by] is absent,
    search-news and get-top-headlines send the default declared for it
    under its upstream key. *)
Theorem declared_defaults_are_used (t : Tool) (arguments : dict)
    (argument key : string) (d : json) :
  t ∈ handle_list_tools ->
  (argument, key) ∈ [("page_size", "pageSize"); ("page", "page"); ("language", "language");
                     ("sort_by", "sortBy")] ->
  declared_default t argument = Some d ->
  arguments !! argument = None ->
  (tool_name t = "search-news" -> search_params arguments !! key = Some d)
  /\ (tool_name t = "get-top-headlines" -> headlines_params arguments !! key = Some d).
Proof.
  intros Ht Hpair Hd Habsent.
  unfold handle_list_tools in Ht.
  apply elem_of_cons in Ht as [-> | Ht]; [| apply elem_of_cons in Ht as [-> | Ht];
    [| apply list_elem_of_singleton in Ht as ->]];
    (split; intros Hname; [| try discriminate Hname]); try discriminate Hname;
    repeat (apply elem_of_cons in Hpair as [[= -> ->] | Hpair]);
    try (by apply elem_of_nil in Hpair);
    vm_compute in Hd; try discriminate Hd; injection Hd as <-.
  all: unfold search_params, headlines_params; cbn [fold_left];
    rewrite !lookup_add_if_given;
    repeat (case_bool_decide; try done);
    unfold arg_get; rewrite Habsent; simplify_map_eq; done.
Qed.

(** X21: the argument that a schema requires is the one the tool checks:
    a listed tool called without a required argument answers with one
    text and sends nothing. *)
Theorem required_arguments_are_checked (t : Tool) (arguments : dict) (r : string) :
  t ∈ handle_list_tools -> JStr r ∈ required t ->
  arguments <> ∅ -> arguments !! r = None ->
  exists text, handle_call_tool client (tool_name t) (Some arguments) = reply text.
Proof.
  intros Ht Hr Ha Habsent.
  unfold handle_list_tools in Ht.
  apply elem_of_cons in Ht as [-> | Ht]; [| apply elem_of_cons in Ht as [-> | Ht];
    [| apply list_elem_of_singleton in Ht as ->]];
    vm_compute in Hr; try (by apply elem_of_nil in Hr).
  apply list_elem_of_singleton in Hr as [= ->].
  unfold handle_call_tool. rewrite bool_decide_false by done. cbn [tool_name].
  change (String.eqb "search-news" "search-news") with true. cbv iota.
  unfold arg_get. rewrite Habsent. by eexists.
Qed.

End ListedTools.

(** ** The further properties in the sample environment *)

Definition server_error : response := Response 500 "upstream is down" (Raise (Exn ValueError "")).

Definition list_body : response := Response 200 "[]" (Return (JArr [])).

Definition sent_to (endpoint : string) (params : dict) : request :=
  Request (NEWS_API_BASE ++ "/" ++ endpoint) (<["apiKey" := JStr "k3y"]> params) 30.

Lemma other_statuses_are_http_errors_witness :
  med_return (make_news_api_request (env := Sample.env) (answering server_error) "everything" None)
  = Return (JStr ("HTTP error occurred: Error response '500' for url "
                  ++ "'https://newsapi.org/v2/everything' - Response: upstream is down")).
Proof.
  apply (other_statuses_are_http_errors (env := Sample.env) (answering server_error)
           "everything" None (sent_to "everything" ∅) server_error);
    try reflexivity; try discriminate.
  right. simpl. lia.
Defined.

Lemma raised_exceptions_become_messages_witness :
  med_return (make_news_api_request (env := Sample.env)
                (fun _ => Raise (Exn TimeoutException "timed out")) "everything" None)
  = Return (JStr "Request timed out after 30 seconds. The News API may be experiencing delays.").
Proof.
  apply (raised_exceptions_become_messages (env := Sample.env)
           (fun _ => Raise (Exn TimeoutException "timed out")) "everything" None
           (sent_to "everything" ∅) (Exn TimeoutException "timed out"));
    reflexivity.
Defined.

Lemma unusable_bodies_are_unexpected_errors_witness :
  med_return (make_news_api_request (env := Sample.env) (answering list_body) "everything" None)
  = Return (JStr "Unexpected error occurred: 'list' object has no attribute 'get'").
Proof.
  destruct (unusable_bodies_are_unexpected_errors (env := Sample.env) (answering list_body)
              "everything" None (sent_to "everything" ∅) list_body) as [H _];
    [reflexivity | reflexivity | simpl; lia |].
  apply (H (JArr [])); [reflexivity | discriminate].
Defined.

Lemma items_that_are_not_mappings_witness :
  format_article (env := Sample.env) (JObj {[ "source" := JNull ]})
  = Return "Error formatting article data: 'NoneType' object has no attribute 'get'".
Proof.
  destruct (items_that_are_not_mappings (env := Sample.env) (JStr "x") {[ "source" := JNull ]}
              JNull) as (_ & _ & H);
    [discriminate | discriminate | reflexivity | left; reflexivity |].
  exact H.
Defined.

Lemma published_that_is_not_text_witness :
  format_article (env := Sample.env) (JObj {[ "publishedAt" := JInt 1709296200 ]})
  = Return "Error formatting article data: 'int' object has no attribute 'replace'".
Proof.
  apply (published_that_is_not_text (env := Sample.env) {[ "publishedAt" := JInt 1709296200 ]}
           (JInt 1709296200)); [reflexivity | reflexivity | discriminate].
Defined.

Lemma negative_limit_drops_from_the_end_witness :
  format_sources (env := Sample.env) (JArr seven_articles) (-2)
  = Return (String.concat nl
              (app (labelled "Source " (format_source (env := Sample.env))
                      (take (length seven_articles - Z.to_nat (- -2)) seven_articles))
                   [nl ++ "... and " ++ str_of_Z (Z.of_nat (length seven_articles) - -2)
                    ++ " more sources"])).
Proof.
  destruct (negative_limit_drops_from_the_end (env := Sample.env) seven_articles (-2))
    as [_ H]; [lia | discriminate |].
  exact H.
Defined.

Lemma values_that_are_not_lists_witness :
  format_articles (env := Sample.env) (JObj {[ "status" := JStr "ok" ]}) 5
  = Return "Error formatting articles: 'dict' object is not subscriptable".
Proof.
  destruct (values_that_are_not_lists (env := Sample.env) (JObj {[ "status" := JStr "ok" ]}) 5)
    as [_ H]; [discriminate | discriminate |].
  destruct H as [H _]; [reflexivity |]. exact H.
Defined.

Definition rate_limited : response := Response 429 "" (Raise (Exn ValueError "")).

Definition no_articles : response :=
  Response 200 "" (Return (JObj {[ "status" := JStr "ok"; "articles" := JArr [] ]})).

Definition about_rocq : dict := {[ "query" := JStr "rocq" ]}.

Lemma mediator_errors_are_reported_witness :
  tool_return (handle_call_tool (env := Sample.env) (answering rate_limited) "search-news"
                 (Some about_rocq))
  = Return [TextContent "text"
      ("Error: " ++ "Rate limit exceeded. The News API has a limit of 100 requests per day "
       ++ "for the free tier.")].
Proof.
  destruct (mediator_errors_are_reported (env := Sample.env) (answering rate_limited) about_rocq
              ("Rate limit exceeded. The News API has a limit of 100 requests per day "
               ++ "for the free tier.")) as [H _].
  - intros E. by apply (f_equal (fun m : dict => m !! "query")) in E.
  - apply H; reflexivity.
Defined.

Lemma empty_payloads_have_their_sentences_witness :
  tool_return (handle_call_tool (env := Sample.env) (answering no_articles) "search-news"
                 (Some about_rocq))
  = Return [TextContent "text" "No articles found for query: 'rocq'"].
Proof.
  destruct (empty_payloads_have_their_sentences (env := Sample.env) (answering no_articles)
              about_rocq {[ "status" := JStr "ok"; "articles" := JArr [] ]}) as [H _].
  - intros E. by apply (f_equal (fun m : dict => m !! "query")) in E.
  - apply H; reflexivity.
Defined.

Lemma present_filter_passes_the_check_witness :
  tool_calls (handle_call_tool (env := Sample.env) (answering no_articles) "get-top-headlines"
                (Some {[ "country" := JStr "" ]}))
  = [Request "https://newsapi.org/v2/top-headlines"
       (<["apiKey" := JStr "k3y"]> {[ "pageSize" := JInt 20; "page" := JInt 1 ]}) 30].
Proof.
  destruct (present_filter_passes_the_check (env := Sample.env) (answering no_articles)
              {[ "country" := JStr "" ]} "country") as [H1 H2].
  - set_solver.
  - by eexists.
  - rewrite H1. rewrite H2; reflexivity.
Defined.

Lemma one_text_content_witness :
  exists text,
    tool_return (handle_call_tool (env := Sample.env) (answering server_error)
                   "get-top-headlines" (Some {[ "country" := JStr "us" ]}))
    = Return [TextContent "text" text].
Proof.
  apply (one_text_content (env := Sample.env)).
  - split; [intros req; exact I | intros req resp [= <-]; reflexivity].
  - intros a [= <-]. right. by eexists.
  - discriminate.
Defined.

Lemma country_that_is_not_text_raises_witness :
  tool_return (handle_call_tool (env := Sample.env)
                 (answering (Response 200 "" (Return (JObj seven_payload))))
                 "get-top-headlines" (Some {[ "country" := JInt 1 ]}))
  = Raise (Exn AttributeError "'int' object has no attribute 'upper'").
Proof.
  apply (country_that_is_not_text_raises (env := Sample.env)
           (answering (Response 200 "" (Return (JObj seven_payload))))
           {[ "country" := JInt 1 ]} seven_payload (JInt 1));
    try reflexivity. discriminate.
Defined.


(** The tool listed at position [i]. *)
Definition listed (i : nat) : Tool :=
  default (MkTool "" "" JNull) (handle_list_tools !! i).

Lemma undeclared_arguments_are_ignored_witness :
  handle_call_tool (env := Sample.env) (answering no_articles) "get-news-sources"
    (Some {[ "language" := JStr "en"; "page_size" := JInt 100 ]})
  = handle_call_tool (env := Sample.env) (answering no_articles) "get-news-sources"
      (Some {[ "language" := JStr "en" ]}).
Proof.
  apply (undeclared_arguments_are_ignored (env := Sample.env) (answering no_articles)
           (listed 2)).
  - unfold listed, handle_list_tools. cbn [lookup list_lookup default from_option id]. set_solver.
  - intros E. by apply (f_equal (fun m : dict => m !! "language")) in E.
  - intros E. by apply (f_equal (fun m : dict => m !! "language")) in E.
  - intros k Hk.
    destruct (decide (k = "page_size")) as [-> | Hne].
    + vm_compute in Hk. by destruct Hk.
    + destruct (decide (k = "language")) as [-> | Hne'].
      * by rewrite lookup_insert_eq, lookup_singleton_eq.
      * by rewrite lookup_insert_ne, !lookup_singleton_ne by done.
Defined.

Lemma declared_defaults_are_used_witness :
  search_params about_rocq !! "sortBy" = Some (JStr "publishedAt").
Proof.
  destruct (declared_defaults_are_used
              (listed 0) about_rocq "sort_by" "sortBy" (JStr "publishedAt")) as [H _].
  - unfold listed, handle_list_tools. cbn [lookup list_lookup default from_option id]. set_solver.
  - set_solver.
  - reflexivity.
  - reflexivity.
  - apply H. reflexivity.
Defined.

Lemma required_arguments_are_checked_witness :
  exists text,
    handle_call_tool (env := Sample.env) (answering no_articles) "search-news"
      (Some {[ "language" := JStr "en" ]})
    = reply text.
Proof.
  apply (required_arguments_are_checked (env := Sample.env) (answering no_articles)
           (listed 0) {[ "language" := JStr "en" ]} "query").
  - unfold listed, handle_list_tools. cbn [lookup list_lookup default from_option id]. set_solver.
  - vm_compute. set_solver.
  - intros E. by apply (f_equal (fun m : dict => m !! "language")) in E.
  - reflexivity.
Defined.

(** ** From the upstream to the caller *)

Section EndToEnd.
Context {env : Environment}.

Variable client : request -> result response.

(** The message of a response that is refused by its status. *)
Definition refusal (resp : response) : string :=
  if status_code resp =? 429 then
    "Rate limit exceeded. The News API has a limit of 100 requests per day for the free tier."
  else if status_code resp =? 401 then "Unauthorized. API key invalid or expired."
  else "Bad request. Error details: " ++ text resp.

(** X22: when a tool call sends its request and the upstream answers it
    with the status 429, 401 or 400, the caller receives one text:
    [Error: ] followed by the message of that status. *)
Theorem refusals_reach_the_caller (name : string) (arguments : option dict) (resp : response) :
  (forall req, req ∈ tool_calls (handle_call_tool client name arguments) ->
     client req = Return resp) ->
  tool_calls (handle_call_tool client name arguments) <> [] ->
  status_code resp ∈ [429; 401; 400] ->
  tool_return (handle_call_tool client name arguments)
  = Return [TextContent "text" ("Error: " ++ refusal resp)].
Proof.
  intros Hclient Hsent Hstatus.
  assert (Hmed : forall endpoint sent,
    client (Request (NEWS_API_BASE ++ "/" ++ endpoint) (<["apiKey" := api_key_value]> sent) 30)
    = Return resp ->
    med_return (make_news_api_request client endpoint (Some sent))
    = Return (JStr (refusal resp))).
  { intros endpoint sent Hresp. unfold make_news_api_request, refusal.
    cbn [med_return default from_option id]. rewrite Hresp. cbn [mbind result_bind].
    repeat (apply elem_of_cons in Hstatus as [-> | Hstatus]); [reflexivity ..|].
    by apply elem_of_nil in Hstatus. }
  revert Hclient Hsent. unfold handle_call_tool.
  destruct arguments as [a |]; [| done].
  destruct (bool_decide (a = ∅)); [done |].
  destruct (String.eqb name "search-news").
  { destruct (negb _); [done |]. cbn [tool_calls tool_return med_calls make_news_api_request].
    intros Hclient _. rewrite Hmed; [reflexivity |]. apply Hclient. apply list_elem_of_here. }
  destruct (String.eqb name "get-top-headlines").
  { destruct (negb _); [done |]. cbn [tool_calls tool_return med_calls make_news_api_request].
    intros Hclient _. rewrite Hmed; [reflexivity |]. apply Hclient. apply list_elem_of_here. }
  destruct (String.eqb name "get-news-sources"); [| done].
  cbn [tool_calls tool_return med_calls make_news_api_request].
  intros Hclient _. rewrite Hmed; [reflexivity |]. apply Hclient. apply list_elem_of_here.
Qed.




End EndToEnd.

Lemma refusals_reach_the_caller_witness :
  tool_return (handle_call_tool (env := Sample.env) (answering bad_request) "search-news"
                 (Some about_rocq))
  = Return [TextContent "text" "Error: Bad request. Error details: pageSize is out of range"].
Proof.
  apply (refusals_reach_the_caller (env := Sample.env) (answering bad_request) "search-news"
           (Some about_rocq) bad_request).
  - reflexivity.
  - intros E. vm_compute in E. discriminate E.
  - apply list_elem_of_further, list_elem_of_further, list_elem_of_here.
Defined.




(** C1, a call that is cancelled while it waits for the response: the
    [CancelledError] passes every clause and leaves the mediator. *)
Lemma cancellation_reaches_the_caller :
  med_return (make_news_api_request (env := Sample.env)
                (fun _ => Raise (Exn CancelledError "")) "everything" None)
  = Raise (Exn CancelledError "").
Proof. reflexivity. Qed.

(** C3, a response with the status 200 whose body is the JSON list [[]]:
    it has no error marker, and the mediator returns an error string, not
    the parsed body. *)
Lemma list_body_is_not_returned :
  status_code list_body = 200
  /\ json_body list_body = Return (JArr [])
  /\ med_return (make_news_api_request (env := Sample.env) (answering list_body)
                  "everything" None)
     = Return (JStr "Unexpected error occurred: 'list' object has no attribute 'get'").
Proof. repeat split; reflexivity. Qed.
